(** * Contraste de brechas / eficiencia: the reshape-and-merge pipeline of app.py

    A shallow embedding of [limpiar_tributos], [limpiar_contribuyentes],
    [procesar_logica] and the available-years expression of [dashboard]
    (src/app.py), with the properties the specification states about them.

    Modelling conventions.
    - A pandas frame read with [header=None] is a list of rows of cells; a
      cell is empty (NaN), a text or a number.  A cell outside a short row
      reads as NaN, as pandas pads ragged rows.
    - Numbers are exact rationals kept in lowest terms ([Qred]), so that
      Rocq's equality on them is numeric equality.  float64 rounding, int64
      wrap-around and signed zeros are outside the embedding; the result of
      a division by zero is kept (plus or minus infinity, or NaN), as numpy
      computes it.
    - Python strings are Rocq strings of 8-bit characters; [str.upper] and
      [str.strip] act on the ASCII letters and the ASCII white space.
    - [str()] of a number and the text-to-number parser of [pd.to_numeric]
      belong to Python and pandas: they are parameters of the development
      ([num_str], [parse_num]).  [Decimal] gives the plain decimal instance
      used to run the pipeline on concrete grids.
    - An exception of the source is a result [Raise e].  Column dtypes are
      not tracked: failures of pandas that depend on the dtype inferred for
      a column are outside the embedding.
    - [sort_values] is called with pandas' default sort kind, which pandas
      and numpy document as not stable; [argsort] is therefore a parameter
      known by its contract (class [Argsort]), with two instances. *)

From Stdlib Require Import Ascii String QArith Qreduction Permutation Sorted.
From Stdlib Require OrderedTypeEx.
From stdpp Require Import gmap strings list sorting pretty.

Set Default Proof Using "Type".
Local Open Scope string_scope.
Local Open Scope list_scope.

(** ** Python string methods *)
Module PyStr.

(** [c.isspace()] on the ASCII range: TAB, LF, VT, FF, CR, FS, GS, RS, US, SPACE. *)
Definition isspace (c : ascii) : bool :=
  let n := nat_of_ascii c in
  ((9 <=? n)%nat && (n <=? 13)%nat) || ((28 <=? n)%nat && (n <=? 32)%nat).

Definition upper_char (c : ascii) : ascii :=
  let n := nat_of_ascii c in
  if ((97 <=? n)%nat && (n <=? 122)%nat) then ascii_of_nat (n - 32) else c.

(** [s.upper()] *)
Fixpoint upper (s : string) : string :=
  match s with
  | EmptyString => EmptyString
  | String c s' => String (upper_char c) (upper s')
  end.

(** [s.lstrip()] *)
Fixpoint lstrip (s : string) : string :=
  match s with
  | EmptyString => EmptyString
  | String c s' => if isspace c then lstrip s' else s
  end.

(** [s.rstrip()] *)
Fixpoint rstrip (s : string) : string :=
  match s with
  | EmptyString => EmptyString
  | String c s' =>
      match rstrip s' with
      | EmptyString => if isspace c then EmptyString else String c EmptyString
      | r => String c r
      end
  end.

(** [s.strip()] *)
Definition strip (s : string) : string := lstrip (rstrip s).

(** [s.startswith(p)] *)
Definition startswith (p s : string) : bool := String.prefix p s.

(** [p in s] on strings (substring test). *)
Fixpoint contains (p s : string) : bool :=
  String.prefix p s ||
  match s with
  | EmptyString => false
  | String _ s' => contains p s'
  end.

(** [s.split(sep)] for a one-character separator: the accumulator [cur]
    holds the current field, reversed. *)
Fixpoint split_aux (sep : ascii) (cur : list ascii) (s : string) : list string :=
  match s with
  | EmptyString => [string_of_list_ascii (rev cur)]
  | String c s' =>
      if Ascii.eqb c sep
      then string_of_list_ascii (rev cur) :: split_aux sep [] s'
      else split_aux sep (c :: cur) s'
  end.

Definition split (sep : ascii) (s : string) : list string := split_aux sep [] s.

(** *** Facts about [upper] and [strip] *)















End PyStr.

(** ** Cells, frames and exceptions *)

(** A cell of a frame read with [header=None]. *)
Inductive cell :=
| NaN
| Text (s : string)
| Num (q : Q).

(** [pd.notna(c)] *)
Definition notna (c : cell) : bool :=
  match c with NaN => false | _ => true end.

(** A raw frame: rows of cells, addressed by position. *)
Definition DataFrame := list (list cell).

(** Number of columns of a frame (ragged rows are padded with NaN). *)
Definition ncols (df : DataFrame) : nat := max_list (length <$> df).

(** The cell of [row] in column [j]. *)
Definition iloc_cell (row : list cell) (j : nat) : cell := default NaN (row !! j).

(** A row as the Series pandas hands out: all [n] columns. *)
Definition row_values (n : nat) (row : list cell) : list cell :=
  iloc_cell row <$> seq 0 n.

Inductive exn := IndexError | KeyError | ValueError | AttributeError.

Inductive result (A : Type) :=
| Ok (a : A)
| Raise (e : exn).
Arguments Ok {A} a.
Arguments Raise {A} e.

#[global] Instance result_ret : MRet result := fun A a => Ok a.
#[global] Instance result_bind : MBind result := fun A B k m =>
  match m with
  | Ok a => k a
  | Raise e => Raise e
  end.

(** [o] when present, else the exception [e]. *)
Definition or_raise {A} (e : exn) (o : option A) : result A :=
  match o with Some a => Ok a | None => Raise e end.

(** Positions of the label [lbl] among the column labels [cols]
    ([Index.get_indexer_for] of one label). *)
Definition positions (lbl : string) (cols : list string) : list nat :=
  filter (fun j => bool_decide (cols !! j = Some lbl)) (seq 0 (length cols)).

(** [algos.unique]: the first occurrence of each element is kept, in order. *)
Fixpoint unique (l : list nat) : list nat :=
  match l with
  | [] => []
  | x :: l' => x :: filter (fun y => bool_decide (y <> x)) (unique l')
  end.

(** Exact arithmetic in lowest terms. *)
Definition qsum (l : list Q) : Q := Qred (foldr Qplus 0%Q l).
Definition qmean (l : list Q) : Q := Qred (qsum l / inject_Z (Z.of_nat (length l))).

(** ** Key normalisation *)

(** [mapa_meses] of [limpiar_contribuyentes]. *)
Definition mapa_meses : gmap string string :=
  list_to_map
    [("Ene.", "Enero"); ("Feb.", "Febrero"); ("Mar.", "Marzo"); ("Abr.", "Abril");
     ("May.", "Mayo"); ("Jun.", "Junio"); ("Jul.", "Julio"); ("Ago.", "Agosto");
     ("Sep.", "Septiembre"); ("Set.", "Septiembre"); ("Oct.", "Octubre");
     ("Nov.", "Noviembre"); ("Dic.", "Diciembre")].

(** [Series.map(mapa_meses).fillna(Series)] on one month token: a token the
    dictionary lacks maps to NaN, which [fillna] replaces by the token. *)
Definition normalizar_mes (m : string) : string := default m (mapa_meses !! m).

(** The twelve canonical month names. *)
Definition meses_canonicos : list string :=
  ["Enero"; "Febrero"; "Marzo"; "Abril"; "Mayo"; "Junio"; "Julio"; "Agosto";
   "Septiembre"; "Octubre"; "Noviembre"; "Diciembre"].

(** [.str.upper().str.strip()] on one region label (collection relation). *)
Definition normalizar_departamento (s : string) : string :=
  PyStr.strip (PyStr.upper s).

(** The dictionary of [.replace({'LIMA METROPOLITANA': 'LIMA'})]. *)
Definition alias_departamento : gmap string string :=
  {[ "LIMA METROPOLITANA" := "LIMA" ]}.

(** [Series.replace(dict)] on one value: whole-value replacement. *)
Definition replace_alias (s : string) : string := default s (alias_departamento !! s).

(** [.str.upper().str.strip().replace({...})] on one region label (taxpayer
    relation). *)
Definition normalizar_departamento_cont (s : string) : string :=
  replace_alias (normalizar_departamento s).

(** ** The two reshapers *)

(** Long-format record of the collection relation, as [melt] leaves it. *)
Record TribMelt := {
  tm_Mes : cell;
  tm_Anio : cell;
  tm_Departamento : string;
  tm_Recaudacion : cell }.

(** Record of the collection relation returned by [limpiar_tributos]. *)
Record TribRow := {
  t_Mes : cell;
  t_Anio : option Q;
  t_Departamento : string;
  t_Recaudacion : Q }.

(** Long-format record of the taxpayer relation, as [melt] leaves it. *)
Record ContMelt := {
  cm_Departamento : cell;
  cm_Year_Mes : string;
  cm_Contribuyentes : cell }.

(** Record of the taxpayer relation returned by [limpiar_contribuyentes]. *)
Record ContRow := {
  c_Departamento : option string;
  c_Year_Mes : string;
  c_Contribuyentes : Q;
  c_Anio : option Q;
  c_Mes : string }.

(** Truth value of a cell in a Python condition ([if current_year]): an
    empty string and a zero are false. *)
Definition truthy (c : cell) : bool :=
  match c with
  | NaN => true
  | Text s => negb (String.eqb s "")
  | Num q => negb (Qeq_bool q 0)
  end.

Section Cleaning.

(** [str(x)] of a number, and the text parser of [pd.to_numeric]. *)
Variable num_str : Q -> string.
Variable parse_num : string -> option Q.

(** [str(c)] *)
Definition str_cell (c : cell) : string :=
  match c with
  | NaN => "nan"
  | Text s => s
  | Num q => num_str q
  end.

(** [pd.to_numeric(c, errors='coerce')] on one cell; [None] is NaN. *)
Definition to_numeric (c : cell) : option Q :=
  match c with
  | NaN => None
  | Text s => Qred <$> parse_num s
  | Num q => Some (Qred q)
  end.

(** [.fillna(d)] on one value. *)
Definition fillna (d : Q) (o : option Q) : Q := default d o.

(** *** Shape A: [limpiar_tributos] *)

(** The test of the header search on one row:
    ['Mes' in row_str and ('Amazonas' in row_str or 'AMAZONAS' in row_str)]. *)
Definition is_header_row (row : list cell) : bool :=
  let row_str := str_cell <$> row in
  bool_decide ("Mes" ∈ row_str) &&
  (bool_decide ("Amazonas" ∈ row_str) || bool_decide ("AMAZONAS" ∈ row_str)).

(** The [for i, row in df_raw.iterrows()] loop, from row [i] on. *)
Fixpoint find_header (i : nat) (rows : DataFrame) : option nat :=
  match rows with
  | [] => None
  | row :: rest => if is_header_row row then Some i else find_header (S i) rest
  end.

(** [header_idx] after the fallback [if header_idx is None: header_idx = 1]. *)
Definition header_idx (df_raw : DataFrame) : nat :=
  default 1%nat (find_header 0 df_raw).

(** [[str(c).strip() for c in df.columns]] over the header row. *)
Definition header_labels (n : nat) (hdr : list cell) : list string :=
  (fun c => PyStr.strip (str_cell c)) <$> row_values n hdr.

(** The positional fallback
    [df.rename(columns={df.columns[0]: 'Mes', df.columns[1]: 'Año'})]:
    a rename by label, through a dictionary whose later key wins. *)
Definition rename_fallback (columns : list string) : result (list string) :=
  if bool_decide ("Mes" ∉ columns) && bool_decide ("Año" ∉ columns) then
    c0 ← or_raise IndexError (columns !! 0%nat);
    c1 ← or_raise IndexError (columns !! 1%nat);
    let d : gmap string string := <[c1 := "Año"]> (<[c0 := "Mes"]> ∅) in
    Ok ((fun c => default c (d !! c)) <$> columns)
  else Ok columns.

Definition id_vars : list string := ["Mes"; "Año"].

(** [[c for c in df.columns if c not in id_vars and 'Unnamed' not in c]] *)
Definition value_vars (columns : list string) : list string :=
  filter (fun c => (c ∉ id_vars) ∧ (PyStr.contains "Unnamed" c = false)) columns.

(** [df.melt(id_vars=['Mes','Año'], value_vars=value_vars,
    var_name='Departamento', value_name='Recaudacion')]: a missing identifier
    label is a KeyError, a repeated one fails when it is popped; the value
    columns are taken once each, column by column. *)
Definition melt_tributos (columns : list string) (body : DataFrame)
  : result (list TribMelt) :=
  match positions "Mes" columns, positions "Año" columns with
  | [], _ | _, [] => Raise KeyError
  | [pm], [pa] =>
      let idx := unique (pm :: pa ::
                   (flat_map (fun v => positions v columns) (value_vars columns))) in
      Ok (flat_map (fun j =>
            (fun row => {| tm_Mes := iloc_cell row pm;
                           tm_Anio := iloc_cell row pa;
                           tm_Departamento := default "" (columns !! j);
                           tm_Recaudacion := iloc_cell row j |}) <$> body)
          (drop 2 idx))
  | _, _ => Raise AttributeError
  end.

(** The column assignments after the melt, on one record. *)
Definition limpiar_trib_row (x : TribMelt) : TribRow :=
  {| t_Mes := tm_Mes x;
     t_Anio := to_numeric (tm_Anio x);
     t_Departamento := normalizar_departamento (tm_Departamento x);
     t_Recaudacion := fillna 0 (to_numeric (tm_Recaudacion x)) |}.

(** [df_long.dropna(subset=['Año'])] *)
Definition dropna_Anio (l : list TribRow) : list TribRow :=
  filter (fun r => is_Some (t_Anio r)) l.

Definition limpiar_tributos (df_raw : DataFrame) : result (list TribRow) :=
  let header_idx := header_idx df_raw in
  hdr ← or_raise IndexError (df_raw !! header_idx);
  let df := drop (S header_idx) df_raw in
  columns ← rename_fallback (header_labels (ncols df_raw) hdr);
  df_long ← melt_tributos columns df;
  Ok (dropna_Anio (limpiar_trib_row <$> df_long)).

(** *** Shape B: [limpiar_contribuyentes] *)

(** [pd.notna(y) and str(y).strip() not in ['nan', '']] *)
Definition is_year_label (y : cell) : bool :=
  notna y && bool_decide (PyStr.strip (str_cell y) ∉ ["nan"; ""]).

(** The label of column [i] given the year carried so far. *)
Definition col_label (i : nat) (current_year : option cell) (m : cell) : string :=
  if (i =? 0)%nat then "Departamento"
  else match current_year with
       | Some cy =>
           if truthy cy && notna m then str_cell cy +:+ "_" +:+ str_cell m
           else "DROP_" +:+ pretty i
       | None => "DROP_" +:+ pretty i
       end.

(** The [for i in range(len(years))] loop from column [i] on; [current_year]
    is the loop's variable, [ym] the remaining (year, month) header cells. *)
Fixpoint new_cols_loop (i : nat) (current_year : option cell)
    (ym : list (cell * cell)) : list string :=
  match ym with
  | [] => []
  | (y, m) :: rest =>
      let current_year := if is_year_label y then Some y else current_year in
      col_label i current_year m :: new_cols_loop (S i) current_year rest
  end.

Definition new_cols (years months : list cell) : list string :=
  new_cols_loop 0 None (zip years months).

(** [df[[c for c in df.columns if not c.startswith('DROP')]]]: each kept
    label selects every column that carries it. *)
Definition select_kept (cols : list string) : list nat :=
  flat_map (fun c => positions c cols)
           (filter (fun c => PyStr.startswith "DROP" c = false) cols).

(** [df.melt(id_vars=['Departamento'], var_name='Year_Mes',
    value_name='Contribuyentes')] over the selected columns. *)
Definition melt_contribuyentes (cols : list string) (sel : list nat)
    (body : DataFrame) : result (list ContMelt) :=
  let label j := default "" (cols !! j) in
  match filter (fun j => bool_decide (label j = "Departamento")) sel with
  | [] => Raise KeyError
  | [pd] =>
      Ok (flat_map (fun j =>
            (fun row => {| cm_Departamento := iloc_cell row pd;
                           cm_Year_Mes := label j;
                           cm_Contribuyentes := iloc_cell row j |}) <$> body)
          (filter (fun j => bool_decide (label j <> "Departamento")) sel))
  | _ => Raise AttributeError
  end.

(** [.str.upper().str.strip().replace(...)] on a cell of the region column:
    the string methods give NaN on a cell that is not a text. *)
Definition departamento_cont (c : cell) : option string :=
  match c with
  | Text s => Some (normalizar_departamento_cont s)
  | _ => None
  end.

(** The column assignments after the melt, on one record whose label splits
    into [anio] and [mes]. *)
Definition limpiar_cont_row (x : ContMelt) (anio mes : string) : ContRow :=
  {| c_Departamento := departamento_cont (cm_Departamento x);
     c_Year_Mes := cm_Year_Mes x;
     c_Contribuyentes := fillna 1 (to_numeric (cm_Contribuyentes x));
     c_Anio := to_numeric (Text anio);
     c_Mes := normalizar_mes mes |}.

(** [df_long[['Año','Mes']] = df_long['Year_Mes'].str.split('_', expand=True)]
    followed by the column assignments: the split must give exactly two
    columns, else the assignment is a ValueError (every label reaching this
    point holds a '_', so no split gives fewer than two parts; the empty
    frame, whose split gives no column, is refused by the caller). *)
Fixpoint split_and_clean (df_long : list ContMelt) : result (list ContRow) :=
  match df_long with
  | [] => Ok []
  | x :: rest =>
      match PyStr.split "_" (cm_Year_Mes x) with
      | [anio; mes] =>
          rows ← split_and_clean rest; Ok (limpiar_cont_row x anio mes :: rows)
      | _ => Raise ValueError
      end
  end.

Definition limpiar_contribuyentes (df_raw : DataFrame) : result (list ContRow) :=
  let n := ncols df_raw in
  years ← or_raise IndexError (df_raw !! 0%nat);
  months ← or_raise IndexError (df_raw !! 1%nat);
  let new_cols := new_cols (row_values n years) (row_values n months) in
  let df := drop 2 df_raw in
  df_long ← melt_contribuyentes new_cols (select_kept new_cols) df;
  match df_long with
  | [] => Raise ValueError
  | _ => split_and_clean df_long
  end.

End Cleaning.

(** ** A decimal instance of the two parameters

    Whole numbers in plain decimal notation: enough to run the reshapers on
    concrete grids. *)
Module Decimal.

Definition num_str (q : Q) : string :=
  let r := Qred q in
  if (Qden r =? 1)%positive then pretty (Qnum r)
  else pretty (Qnum r) +:+ "/" +:+ pretty (Zpos (Qden r)).

Definition digit (c : ascii) : option Z :=
  let n := nat_of_ascii c in
  if ((48 <=? n)%nat && (n <=? 57)%nat) then Some (Z.of_nat (n - 48)) else None.

Fixpoint parse_digits (acc : Z) (s : string) : option Z :=
  match s with
  | EmptyString => Some acc
  | String c s' =>
      match digit c with
      | Some d => parse_digits (10 * acc + d) s'
      | None => None
      end
  end.

Definition parse_num (s : string) : option Q :=
  match s with
  | EmptyString => None
  | String "-" (String c s') => (fun z => inject_Z (- z)) <$> parse_digits 0 (String c s')
  | _ => inject_Z <$> parse_digits 0 s
  end.

End Decimal.

(** ** Merge, aggregation and ranking: [procesar_logica] *)

(** The value of a float column that a division may have produced. *)
Inductive xnum :=
| Finite (q : Q)
| PosInf
| NegInf
| Undef.

(** [isna] on a float: only NaN is missing. *)
Definition isna (x : xnum) : bool :=
  match x with Undef => true | _ => false end.

(** numpy's float division [a / b] on finite operands: a zero divisor gives
    an infinity with the sign of [a], or NaN when [a] is zero too. *)
Definition np_div (a b : Q) : xnum :=
  if Qeq_bool b 0 then
    match (a ?= 0)%Q with
    | Eq => Undef
    | Gt => PosInf
    | Lt => NegInf
    end
  else Finite (Qred (a / b)).

(** The order numpy sorts floats by: NaN after every number. *)
Definition xleb (a b : xnum) : bool :=
  match a, b with
  | _, Undef => true
  | Undef, _ => false
  | NegInf, _ => true
  | _, NegInf => false
  | _, PosInf => true
  | PosInf, _ => false
  | Finite p, Finite q => Qle_bool p q
  end.

Definition xle (a b : xnum) : Prop := xleb a b = true.

(** [l[idx]]: the elements of [l] at the positions [idx]. *)
Definition take_idx {A} (l : list A) (idx : list nat) : list A :=
  omap (fun i => l !! i) idx.

(** [ndarray.argsort(kind='quicksort')].  pandas passes its default sort
    kind, which numpy and pandas document as not stable, so the routine is
    known by its contract only: the indices are a permutation of the
    positions and read the values in ascending order. *)
Class Argsort := {
  argsort : list xnum -> list nat;
  argsort_perm : forall l, argsort l ≡ₚ seq 0 (length l);
  argsort_sorted : forall l, Sorted xle (take_idx l (argsort l)) }.

(** A row of [pd.merge(df_trib, df_cont, on=['Departamento','Año','Mes'],
    how='inner')]. *)
Record MergedRow := {
  m_Mes : cell;
  m_Anio : option Q;
  m_Departamento : string;
  m_Recaudacion : Q;
  m_Year_Mes : string;
  m_Contribuyentes : Q }.

(** A row of the ranking. *)
Record RankingRow := {
  r_Departamento : string;
  r_Recaudacion : Q;
  r_Contribuyentes : Q;
  r_Soles_por_Contribuyente : xnum }.

(** Equality of two year keys; pandas joins a missing key with a missing key. *)
Definition anio_eqb (a b : option Q) : bool :=
  match a, b with
  | Some x, Some y => Qeq_bool x y
  | None, None => true
  | _, _ => false
  end.

(** Equality of a month cell of the collection relation (any cell of the
    'Mes' column) and a month of the taxpayer relation (always a text). *)
Definition mes_eqb (m : cell) (s : string) : bool :=
  match m with
  | Text s' => String.eqb s' s
  | _ => false
  end.

(** Equality of the join key (Departamento, Año, Mes) of a collection record
    and a taxpayer record. *)
Definition key_eqb (t : TribRow) (c : ContRow) : bool :=
  bool_decide (c_Departamento c = Some (t_Departamento t)) &&
  anio_eqb (t_Anio t) (c_Anio c) &&
  mes_eqb (t_Mes t) (c_Mes c).

Definition merged (t : TribRow) (c : ContRow) : MergedRow :=
  {| m_Mes := t_Mes t;
     m_Anio := t_Anio t;
     m_Departamento := t_Departamento t;
     m_Recaudacion := t_Recaudacion t;
     m_Year_Mes := c_Year_Mes c;
     m_Contribuyentes := c_Contribuyentes c |}.

(** The inner join, in the order of the left keys. *)
Definition merge (df_trib : list TribRow) (df_cont : list ContRow) : list MergedRow :=
  flat_map (fun t => merged t <$> filter (fun c => key_eqb t c = true) df_cont) df_trib.

(** [df_merged['Año'] == anio_target] on one row. *)
Definition anio_is (anio_target : Z) (r : MergedRow) : bool :=
  match m_Anio r with
  | Some y => Qeq_bool y (inject_Z anio_target)
  | None => false
  end.

(** Insertion of a group key into the sorted keys seen so far. *)
Fixpoint insert_key (k : string) (ks : list string) : list string :=
  match ks with
  | [] => [k]
  | k' :: rest =>
      match String.compare k k' with
      | Lt => k :: ks
      | Eq => ks
      | Gt => k' :: insert_key k rest
      end
  end.

(** The group keys of [groupby('Departamento')]: distinct, ascending. *)
Definition group_keys (df : list MergedRow) : list string :=
  foldr insert_key [] (m_Departamento <$> df).

(** The rows of one group. *)
Definition group (k : string) (df : list MergedRow) : list MergedRow :=
  filter (fun r => m_Departamento r = k) df.

(** [total * 1_000_000 / promedio] *)
Definition soles_por_contribuyente (total promedio : Q) : xnum :=
  np_div (Qred (total * 1000000)) promedio.

(** One row of [groupby('Departamento').agg({'Recaudacion': 'sum',
    'Contribuyentes': 'mean'}).reset_index()], with the metric column. *)
Definition ranking_row (k : string) (df : list MergedRow) : RankingRow :=
  let g := group k df in
  let total := qsum (m_Recaudacion <$> g) in
  let promedio := qmean (m_Contribuyentes <$> g) in
  {| r_Departamento := k;
     r_Recaudacion := total;
     r_Contribuyentes := promedio;
     r_Soles_por_Contribuyente := soles_por_contribuyente total promedio |}.

Definition df_ranking (df_filtrado : list MergedRow) : list RankingRow :=
  (fun k => ranking_row k df_filtrado) <$> group_keys df_filtrado.

Section Ranking.
Context `{Argsort}.

(** [sort_values('Soles_por_Contribuyente', ascending=False)], as pandas'
    [nargsort] does it: the rows without a NaN key are reversed, sorted
    ascending by [argsort] and reversed again; the rows with a NaN key
    follow in their original order. *)
Definition sort_values_desc (rows : list RankingRow) : list RankingRow :=
  let non_nans := reverse (filter (fun r => isna (r_Soles_por_Contribuyente r) = false) rows) in
  let indexer := argsort (r_Soles_por_Contribuyente <$> non_nans) in
  reverse (take_idx non_nans indexer)
  ++ filter (fun r => isna (r_Soles_por_Contribuyente r) = true) rows.

(** [procesar_logica]; [None] is the source's [return None]. *)
Definition procesar_logica (df_trib : list TribRow) (df_cont : list ContRow)
    (anio_target : Z) : option (list RankingRow) :=
  let df_merged := merge df_trib df_cont in
  let df_filtrado := filter (fun r => anio_is anio_target r = true) df_merged in
  match df_filtrado with
  | [] => None
  | _ => Some (sort_values_desc (df_ranking df_filtrado))
  end.

End Ranking.

(** ** Available years: [anios_disponibles] of [dashboard] *)

(** Insertion of a year into a descending list without repetition. *)
Fixpoint insert_anio (y : Q) (ys : list Q) : list Q :=
  match ys with
  | [] => [y]
  | y' :: rest =>
      match (y ?= y')%Q with
      | Gt => y :: ys
      | Eq => ys
      | Lt => y' :: insert_anio y rest
      end
  end.

(** [sorted(list(s), reverse=True)] of a set given by its elements. *)
Definition sorted_desc (ys : list Q) : list Q := foldr insert_anio [] ys.

(** [set(df_trib['Año'].unique()) & set(df_cont['Año'].unique())], sorted
    descending.  A NaN year is never common to the two sets. *)
Definition anios_disponibles (df_trib : list TribRow) (df_cont : list ContRow) : list Q :=
  let anios_cont := omap c_Anio df_cont in
  sorted_desc (filter (fun y => existsb (Qeq_bool y) anios_cont = true)
                      (omap t_Anio df_trib)).

(** ** Two sorting routines that meet the contract of [Argsort]

    Both are insertion sorts over (value, position) pairs.  With
    [ties_first = true] a value is inserted before the equal values already
    placed (a stable sort); with [ties_first = false] after them (equal
    values come out in reverse order). *)
Module InsertionSort.

Definition goes_before (ties_first : bool) (x y : xnum) : bool :=
  if ties_first then xleb x y else negb (xleb y x).

Fixpoint insert_pair (ties_first : bool) (p : xnum * nat) (ps : list (xnum * nat))
  : list (xnum * nat) :=
  match ps with
  | [] => [p]
  | p' :: rest =>
      if goes_before ties_first p.1 p'.1 then p :: ps
      else p' :: insert_pair ties_first p rest
  end.

Definition sort_pairs (ties_first : bool) (ps : list (xnum * nat)) : list (xnum * nat) :=
  foldr (insert_pair ties_first) [] ps.

Definition argsort (ties_first : bool) (l : list xnum) : list nat :=
  (sort_pairs ties_first (zip l (seq 0 (length l)))).*2.

End InsertionSort.

(** *** The order on float values *)

Lemma Qle_bool_total p q : Qle_bool p q = true \/ Qle_bool q p = true.
Proof.
  destruct (Qlt_le_dec p q) as [Hlt|Hle].
  - left. apply Qle_bool_iff, Qlt_le_weak, Hlt.
  - right. apply Qle_bool_iff, Hle.
Qed.

Lemma xleb_total a b : xleb a b = true \/ xleb b a = true.
Proof.
  destruct a, b; simpl; auto using Qle_bool_total.
Qed.

Lemma xleb_refl a : xleb a a = true.
Proof. destruct (xleb_total a a); assumption. Qed.

Lemma xleb_trans a b c : xleb a b = true -> xleb b c = true -> xleb a c = true.
Proof.
  destruct a, b, c; simpl; try congruence.
  rewrite !Qle_bool_iff. apply Qle_trans.
Qed.

#[global] Instance xle_trans : Transitive xle.
Proof. intros a b c. apply xleb_trans. Qed.

(** *** Indexing by a list of positions *)

Lemma take_idx_seq_app {A} (l1 l2 : list A) :
  take_idx (l1 ++ l2) (seq (length l1) (length l2)) = l2.
Proof.
  revert l1. induction l2 as [|x l2 IH]; intros l1; [reflexivity|].
  unfold take_idx in *. simpl.
  rewrite lookup_app_r by lia. rewrite Nat.sub_diag. simpl.
  f_equal. specialize (IH (l1 ++ [x])).
  rewrite <- app_assoc, length_app in IH. simpl in IH.
  rewrite Nat.add_1_r in IH. exact IH.
Qed.

Lemma take_idx_seq {A} (l : list A) : take_idx l (seq 0 (length l)) = l.
Proof. exact (take_idx_seq_app [] l). Qed.

Lemma take_idx_perm {A} (l : list A) idx :
  idx ≡ₚ seq 0 (length l) -> take_idx l idx ≡ₚ l.
Proof.
  intros Hp. unfold take_idx. rewrite Hp. fold (take_idx l (seq 0 (length l))).
  by rewrite take_idx_seq.
Qed.


Lemma take_idx_pairs {A} (l : list A) (ps : list (A * nat)) :
  Forall (fun p => l !! p.2 = Some p.1) ps -> take_idx l ps.*2 = ps.*1.
Proof.
  unfold take_idx. induction 1 as [|p ps Hp _ IH]; [reflexivity|].
  rewrite !fmap_cons. cbn [omap list_omap]. rewrite Hp. f_equal. exact IH.
Qed.

Lemma zip_seq_lookup {A} (l1 l2 : list A) :
  Forall (fun p => (l1 ++ l2) !! p.2 = Some p.1) (zip l2 (seq (length l1) (length l2))).
Proof.
  revert l1. induction l2 as [|x l2 IH]; intros l1; simpl; constructor.
  - simpl. rewrite lookup_app_r by lia. by rewrite Nat.sub_diag.
  - specialize (IH (l1 ++ [x])).
    rewrite <- app_assoc, length_app in IH. simpl in IH.
    rewrite Nat.add_1_r in IH. exact IH.
Qed.

(** *** The insertion sorts meet the contract *)

Lemma goes_before_true tf x y : InsertionSort.goes_before tf x y = true -> xle x y.
Proof.
  unfold InsertionSort.goes_before, xle. destruct tf; [done|].
  intros Hn. destruct (xleb_total x y) as [H|H]; [done|].
  rewrite H in Hn. discriminate.
Qed.

Lemma goes_before_false tf x y : InsertionSort.goes_before tf x y = false -> xle y x.
Proof.
  unfold InsertionSort.goes_before, xle. destruct tf.
  - intros Hn. destruct (xleb_total x y) as [H|H]; [congruence|done].
  - intros Hn. by apply negb_false_iff in Hn.
Qed.

Lemma insert_pair_perm tf p ps : InsertionSort.insert_pair tf p ps ≡ₚ p :: ps.
Proof.
  induction ps as [|p' ps IH]; simpl; [done|].
  destruct (InsertionSort.goes_before tf p.1 p'.1); [done|].
  rewrite IH. apply Permutation_swap.
Qed.

Lemma sort_pairs_perm tf ps : InsertionSort.sort_pairs tf ps ≡ₚ ps.
Proof.
  induction ps as [|p ps IH]; simpl; [done|].
  by rewrite insert_pair_perm, IH.
Qed.

Definition pair_le (p p' : xnum * nat) : Prop := xle p.1 p'.1.

Lemma insert_pair_hd tf a p ps :
  pair_le a p -> HdRel pair_le a ps -> HdRel pair_le a (InsertionSort.insert_pair tf p ps).
Proof.
  intros Hap Hhd. destruct ps as [|p' ps]; simpl; [by constructor|].
  destruct (InsertionSort.goes_before tf p.1 p'.1); constructor; [done|].
  by inversion Hhd.
Qed.

Lemma insert_pair_sorted tf p ps :
  Sorted pair_le ps -> Sorted pair_le (InsertionSort.insert_pair tf p ps).
Proof.
  induction 1 as [|p' ps Hs IH Hhd]; simpl; [by repeat constructor|].
  destruct (InsertionSort.goes_before tf p.1 p'.1) eqn:E.
  - constructor; [by constructor|]. constructor. by apply goes_before_true in E.
  - constructor; [exact IH|]. apply insert_pair_hd; [|exact Hhd].
    by apply goes_before_false in E.
Qed.

Lemma sort_pairs_sorted tf ps : Sorted pair_le (InsertionSort.sort_pairs tf ps).
Proof.
  induction ps as [|p ps IH]; simpl; [constructor|].
  by apply insert_pair_sorted.
Qed.

Lemma insertion_argsort_perm tf l : InsertionSort.argsort tf l ≡ₚ seq 0 (length l).
Proof.
  unfold InsertionSort.argsort. rewrite sort_pairs_perm.
  rewrite snd_zip; [done|]. by rewrite length_seq.
Qed.

Lemma insertion_argsort_sorted tf l :
  Sorted xle (take_idx l (InsertionSort.argsort tf l)).
Proof.
  unfold InsertionSort.argsort. rewrite take_idx_pairs.
  - apply (Sorted_fmap fst pair_le xle); [by intros x y|]. apply sort_pairs_sorted.
  - rewrite sort_pairs_perm. exact (zip_seq_lookup [] l).
Qed.

(** The stable routine (numpy's [kind='stable']). *)
Definition argsort_stable : Argsort :=
  {| argsort := InsertionSort.argsort true;
     argsort_perm := insertion_argsort_perm true;
     argsort_sorted := insertion_argsort_sorted true |}.


(** ** The specification's wording of the two header resolvers

    These follow the specification's sentences, not the source; they are
    what the source's definitions are compared with. *)

(** Shape A, as specified: the row holds the label "Mes" and a known region
    name "matched case-insensitively (e.g. Amazonas)". *)
Definition spec_is_header_row (num_str : Q -> string) (row : list cell) : bool :=
  let row_str := str_cell num_str <$> row in
  bool_decide ("Mes" ∈ row_str) &&
  bool_decide ("AMAZONAS" ∈ PyStr.upper <$> row_str).

Fixpoint spec_find_header (num_str : Q -> string) (i : nat) (rows : DataFrame)
  : option nat :=
  match rows with
  | [] => None
  | row :: rest =>
      if spec_is_header_row num_str row then Some i
      else spec_find_header num_str (S i) rest
  end.

Definition spec_header_idx (num_str : Q -> string) (df_raw : DataFrame) : nat :=
  default 1%nat (spec_find_header num_str 0 df_raw).

(** Shape B, as specified: the forward-filled year of column [i] is the most
    recent non-empty year label in columns 0..i. *)
Definition ffill_year (num_str : Q -> string) (years : list cell) (i : nat)
  : option cell :=
  last (filter (fun y => is_year_label num_str y = true) (take (S i) years)).

(** Shape B, as specified: a column is excluded "exactly when it lacks both
    a forward-filled year and a month value". *)
Definition spec_excluded (num_str : Q -> string) (years months : list cell)
    (i : nat) : Prop :=
  ffill_year num_str years i = None /\ iloc_cell months i = NaN.

(** What the source does with a column: it is excluded when its label is not
    among the kept ones. *)
Definition excluded (cols : list string) (i : nat) : Prop :=
  i ∉ select_kept cols.

(** ** The specification's wording of a stable ranking *)



(** ** Concrete grids and relations

    The inputs on which the properties below are evaluated. *)

(** A grid whose first row holds "Mes" and the region name in lower case. *)
Definition grid_amazonas_lowercase : DataFrame :=
  [ [Text "Mes"; Text "Año"; Text "amazonas"; Text "lima"];
    [Text "Enero"; Num 2024; Num 10; Num 20];
    [Text "Febrero"; Num 2024; Num 30; Num 40] ].

(** A taxpayer header whose third column carries the year 2024 forward but
    has no month. *)
Definition years_row_2024 : list cell := [NaN; Num 2024; NaN].
Definition months_row_Ene : list cell := [NaN; Text "Ene."; NaN].


Definition grid_cont_ND : DataFrame :=
  [ [NaN; Num 2024; NaN];
    [Text "Departamento"; Text "Ene."; Text "Feb."];
    [Text "Amazonas"; Text "N/D"; Num 7] ].

(** A taxpayer grid whose year label is not a number. *)
Definition grid_cont_year_text : DataFrame :=
  [ [NaN; Text "FY24"];
    [Text "Departamento"; Text "Ene."];
    [Text "Lima"; Num 50] ].


Definition grid_cont_scenario1 : DataFrame :=
  [ [NaN; Num 2024];
    [Text "Departamento"; Text "Ene."];
    [Text "Lima Metropolitana"; Num 50] ].

(** Relations with two regions of equal total and equal number of
    taxpayers (AREQUIPA, CUSCO), a region ahead of them (LIMA) and a region
    without collection or taxpayers (TACNA). *)
Definition trib_ties : list TribRow :=
  [ {| t_Mes := Text "Enero"; t_Anio := Some 2024%Q; t_Departamento := "AREQUIPA";
       t_Recaudacion := 5 |};
    {| t_Mes := Text "Enero"; t_Anio := Some 2024%Q; t_Departamento := "CUSCO";
       t_Recaudacion := 5 |};
    {| t_Mes := Text "Enero"; t_Anio := Some 2024%Q; t_Departamento := "LIMA";
       t_Recaudacion := 9 |};
    {| t_Mes := Text "Enero"; t_Anio := Some 2024%Q; t_Departamento := "TACNA";
       t_Recaudacion := 0 |} ].

Definition cont_ties : list ContRow :=
  [ {| c_Departamento := Some "AREQUIPA"; c_Year_Mes := "2024_Ene.";
       c_Contribuyentes := 2; c_Anio := Some 2024%Q; c_Mes := "Enero" |};
    {| c_Departamento := Some "CUSCO"; c_Year_Mes := "2024_Ene.";
       c_Contribuyentes := 2; c_Anio := Some 2024%Q; c_Mes := "Enero" |};
    {| c_Departamento := Some "LIMA"; c_Year_Mes := "2024_Ene.";
       c_Contribuyentes := 3; c_Anio := Some 2024%Q; c_Mes := "Enero" |};
    {| c_Departamento := Some "TACNA"; c_Year_Mes := "2024_Ene.";
       c_Contribuyentes := 0; c_Anio := Some 2024%Q; c_Mes := "Enero" |} ].

(** The rows of their ranking for 2024. *)
Definition row_arequipa : RankingRow :=
  {| r_Departamento := "AREQUIPA"; r_Recaudacion := 5; r_Contribuyentes := 2;
     r_Soles_por_Contribuyente := Finite 2500000 |}.
Definition row_cusco : RankingRow :=
  {| r_Departamento := "CUSCO"; r_Recaudacion := 5; r_Contribuyentes := 2;
     r_Soles_por_Contribuyente := Finite 2500000 |}.
Definition row_lima : RankingRow :=
  {| r_Departamento := "LIMA"; r_Recaudacion := 9; r_Contribuyentes := 3;
     r_Soles_por_Contribuyente := Finite 3000000 |}.
Definition row_tacna : RankingRow :=
  {| r_Departamento := "TACNA"; r_Recaudacion := 0; r_Contribuyentes := 0;
     r_Soles_por_Contribuyente := Undef |}.


(** Grids with data for 2023 in the collection source and for 2024 in the
    taxpayer source. *)
Definition grid_trib_2023 : DataFrame :=
  [ [Text "Mes"; Text "Año"; Text "Lima"; Text "Amazonas"];
    [Text "Enero"; Num 2023; Num 100; Num 7] ].

(** Scenario 3 of the specification: data for 2023 and 2024 in both
    relations; the year 2019 gives [None] and the available years are
    2024, 2023. *)
Definition trib_2023_2024 : list TribRow :=
  [ {| t_Mes := Text "Enero"; t_Anio := Some 2023%Q; t_Departamento := "LIMA";
       t_Recaudacion := 90 |};
    {| t_Mes := Text "Enero"; t_Anio := Some 2024%Q; t_Departamento := "LIMA";
       t_Recaudacion := 100 |} ].

Definition cont_2023_2024 : list ContRow :=
  [ {| c_Departamento := Some "LIMA"; c_Year_Mes := "2023_Ene.";
       c_Contribuyentes := 40; c_Anio := Some 2023%Q; c_Mes := "Enero" |};
    {| c_Departamento := Some "LIMA"; c_Year_Mes := "2024_Ene.";
       c_Contribuyentes := 50; c_Anio := Some 2024%Q; c_Mes := "Enero" |} ].

(** ** The pipeline part of [dashboard]

    From the two raw frames to the decision between the "no data" answer
    and the rendering (the body of the [try], lines 155-166, and its
    [except]).  Reading the files, drawing the chart and writing the
    workbook are outside the embedding: [Resultado] stands for "the
    rendering starts with this ranking and this list of years". *)
Inductive respuesta :=
| SinDatos (anio : Z) (ultimo : Q)
| Resultado (df_resultado : list RankingRow) (lista_anios : list Q)
| ErrorProcesando (e : exn).

Definition dashboard_pipeline `{Argsort}
    (num_str : Q -> string) (parse_num : string -> option Q)
    (df_trib_raw df_cont_raw : DataFrame) (anio : Z) : respuesta :=
  let intento :=
    df_trib ← limpiar_tributos num_str parse_num df_trib_raw;
    df_cont ← limpiar_contribuyentes num_str parse_num df_cont_raw;
    let anios_disponibles := anios_disponibles df_trib df_cont in
    match procesar_logica df_trib df_cont anio with
    | None =>
        ultimo ← or_raise IndexError (anios_disponibles !! 0%nat);
        Ok (SinDatos anio ultimo)
    | Some df_resultado => Ok (Resultado df_resultado anios_disponibles)
    end in
  match intento with
  | Ok r => r
  | Raise e => ErrorProcesando e
  end.

(** Grids with data for 2023 and 2024 in both sources. *)
Definition grid_trib_two_years : DataFrame :=
  [ [Text "Mes"; Text "Año"; Text "Lima"; Text "Amazonas"];
    [Text "Enero"; Num 2023; Num 90; Num 6];
    [Text "Enero"; Num 2024; Num 100; Num 7] ].

Definition grid_cont_two_years : DataFrame :=
  [ [NaN; Num 2023; Num 2024];
    [Text "Departamento"; Text "Ene."; Text "Ene."];
    [Text "Lima Metropolitana"; Num 40; Num 50] ].

(** * Properties *)

(** ** Key normalisation *)


Lemma replace_alias_cases s :
  (s = "LIMA METROPOLITANA" /\ replace_alias s = "LIMA") \/
  (s <> "LIMA METROPOLITANA" /\ replace_alias s = s).
Proof.
  unfold replace_alias, alias_departamento.
  destruct (decide (s = "LIMA METROPOLITANA")) as [->|Hne].
  - left. by rewrite lookup_singleton_eq.
  - right. by rewrite lookup_singleton_ne.
Qed.



Lemma mapa_meses_values k v :
  mapa_meses !! k = Some v -> v ∈ meses_canonicos /\ mapa_meses !! v = None.
Proof.
  intros Hk. apply elem_of_list_to_map_2 in Hk.
  repeat (apply elem_of_cons in Hk as [Hk|Hk];
          [injection Hk as -> ->; split; [set_solver | by vm_compute]|]).
  by apply elem_of_nil in Hk.
Qed.

Lemma normalizar_mes_idem m : normalizar_mes (normalizar_mes m) = normalizar_mes m.
Proof.
  unfold normalizar_mes at 2 3. destruct (mapa_meses !! m) as [v|] eqn:E; simpl.
  - apply mapa_meses_values in E as [_ E]. unfold normalizar_mes. by rewrite E.
  - unfold normalizar_mes. by rewrite E.
Qed.

(** C8.  Month normalisation is a total function; each of the twelve
    canonical month names maps to itself; every abbreviated token of the
    mapping ("Sep." and the alternate "Set." included) maps to its canonical
    full name; a token the mapping lacks passes through unchanged. *)
Theorem month_normalization_total_idempotent_passthrough :
  (forall m, m ∈ meses_canonicos -> normalizar_mes m = m) /\
  (normalizar_mes <$>
     ["Ene."; "Feb."; "Mar."; "Abr."; "May."; "Jun."; "Jul."; "Ago.";
      "Sep."; "Set."; "Oct."; "Nov."; "Dic."])
  = ["Enero"; "Febrero"; "Marzo"; "Abril"; "Mayo"; "Junio"; "Julio"; "Agosto";
     "Septiembre"; "Septiembre"; "Octubre"; "Noviembre"; "Diciembre"] /\
  (forall k v, mapa_meses !! k = Some v ->
               normalizar_mes k = v /\ v ∈ meses_canonicos) /\
  (forall m, mapa_meses !! m = None -> normalizar_mes m = m) /\
  (forall m, normalizar_mes (normalizar_mes m) = normalizar_mes m) /\
  (forall parse_num x anio mes,
     c_Mes (limpiar_cont_row parse_num x anio mes) = default mes (mapa_meses !! mes)).
Proof.
  split.
  { intros m Hm. unfold meses_canonicos in Hm.
    repeat (apply elem_of_cons in Hm as [->|Hm]; [by vm_compute|]).
    by apply elem_of_nil in Hm. }
  split; [by vm_compute|].
  split.
  { intros k v Hk. split; [unfold normalizar_mes; by rewrite Hk|].
    by apply mapa_meses_values in Hk as [? _]. }
  split; [intros m Hm; unfold normalizar_mes; by rewrite Hm|].
  split; [exact normalizar_mes_idem|].
  reflexivity.
Qed.

(** ** Shape A: the header search *)

Section HeaderSearch.
Variable num_str : Q -> string.

Lemma find_header_first k rows n row :
  rows !! n = Some row ->
  is_header_row num_str row = true ->
  (forall j row', j < n -> rows !! j = Some row' -> is_header_row num_str row' = false) ->
  find_header num_str k rows = Some (k + n).
Proof.
  revert k n. induction rows as [|r rows IH]; intros k n Hn Hrow Hbefore; [done|].
  destruct n as [|n]; simpl in *.
  - injection Hn as ->. rewrite Hrow. f_equal. lia.
  - rewrite (Hbefore 0 r) by (lia || done).
    replace (k + S n) with (S k + n) by lia.
    apply IH; [done..|].
    intros j row' Hj Hrow'. apply (Hbefore (S j)); [lia|done].
Qed.

Lemma find_header_none k rows :
  (forall row, row ∈ rows -> is_header_row num_str row = false) ->
  find_header num_str k rows = None.
Proof.
  revert k. induction rows as [|r rows IH]; intros k Hall; [done|].
  simpl. rewrite Hall by (by left). apply IH. intros row Hrow. apply Hall. by right.
Qed.

Lemma is_header_row_iff row :
  is_header_row num_str row = true <->
  (exists c, c ∈ row /\ str_cell num_str c = "Mes") /\
  (exists c, c ∈ row /\
     (str_cell num_str c = "Amazonas" \/ str_cell num_str c = "AMAZONAS")).
Proof.
  unfold is_header_row.
  rewrite andb_true_iff, orb_true_iff, !bool_decide_eq_true, !list_elem_of_fmap.
  split.
  - intros [[c [Hc Hin]] [[d [Hd Hdin]]|[d [Hd Hdin]]]]; split; eauto.
  - intros [[c [Hin Hc]] [d [Hdin [Hd|Hd]]]]; split; eauto.
Qed.

(** C9, as the source has it.  The resolved header row is the first row,
    from the top, whose cells (as strings) include the literal "Mes" and one
    of the two literals "Amazonas" and "AMAZONAS"; when no row does, the
    header index is 1. *)
Theorem header_idx_first_row_with_Mes_and_Amazonas_literal (df_raw : DataFrame) :
  (forall i row,
     df_raw !! i = Some row ->
     is_header_row num_str row = true ->
     (forall j row', j < i -> df_raw !! j = Some row' ->
                     is_header_row num_str row' = false) ->
     header_idx num_str df_raw = i) /\
  ((forall row, row ∈ df_raw -> is_header_row num_str row = false) ->
   header_idx num_str df_raw = 1%nat) /\
  (forall row,
     is_header_row num_str row = true <->
     (exists c, c ∈ row /\ str_cell num_str c = "Mes") /\
     (exists c, c ∈ row /\
        (str_cell num_str c = "Amazonas" \/ str_cell num_str c = "AMAZONAS"))).
Proof.
  split; [|split].
  - intros i row Hi Hrow Hbefore. unfold header_idx.
    by rewrite (find_header_first 0 df_raw i row).
  - intros Hall. unfold header_idx. by rewrite find_header_none.
  - exact is_header_row_iff.
Qed.

End HeaderSearch.

(** C9, as stated, fails: on [grid_amazonas_lowercase] the first row holds
    "Mes" and "amazonas", a case-insensitive match of the known region, so
    the specified header row is row 0; the source finds no header row and
    falls back to row 1. *)
Lemma header_idx_not_case_insensitive :
  spec_header_idx Decimal.num_str grid_amazonas_lowercase = 0%nat /\
  header_idx Decimal.num_str grid_amazonas_lowercase = 1%nat /\
  ~ (forall df_raw,
       header_idx Decimal.num_str df_raw = spec_header_idx Decimal.num_str df_raw).
Proof.
  split; [by vm_compute|]. split; [by vm_compute|].
  intros Hall. specialize (Hall grid_amazonas_lowercase).
  vm_compute in Hall. discriminate.
Qed.

(** The header search at work: a header row spelled "AMAZONAS" below a
    title row is found at index 1 by the search, not by the fallback. *)
Lemma header_idx_first_row_witness :
  header_idx Decimal.num_str
    [ [Text "Recaudacion"]; [NaN];
      [Text "Mes"; Text "Año"; Text "AMAZONAS"]; [Text "Enero"; Num 2024; Num 1] ]
  = 2%nat.
Proof.
  apply (proj1 (header_idx_first_row_with_Mes_and_Amazonas_literal
                  Decimal.num_str _) 2%nat [Text "Mes"; Text "Año"; Text "AMAZONAS"]).
  - reflexivity.
  - by vm_compute.
  - intros j row' Hj Hrow'.
    destruct j as [|[|j]]; [| |lia]; injection Hrow' as <-; by vm_compute.
Defined.

(** ** Shape B: the column labels *)

Section ColumnLabels.
Variable num_str : Q -> string.

(** The year the loop carries after column [n], started with [cy]. *)
Definition carried (cy : option cell) (years : list cell) (n : nat) : option cell :=
  match ffill_year num_str years n with
  | Some y => Some y
  | None => cy
  end.

Lemma new_cols_loop_lookup ym k cy n y m :
  ym !! n = Some (y, m) ->
  new_cols_loop num_str k cy ym !! n
  = Some (col_label num_str (k + n) (carried cy ym.*1 n) m).
Proof.
  revert k cy n. induction ym as [|[y0 m0] ym IH]; intros k cy n Hn; [done|].
  destruct n as [|n].
  - injection Hn as -> ->. simpl. rewrite Nat.add_0_r. do 2 f_equal.
    unfold carried, ffill_year. simpl. rewrite take_0, filter_cons, filter_nil.
    destruct (is_year_label num_str y); by case_decide.
  - simpl in Hn. simpl. rewrite (IH _ _ _ Hn).
    replace (S k + n) with (k + S n) by lia. do 2 f_equal.
    unfold carried, ffill_year.
    change (y0 :: list_fmap _ _ fst ym) with (y0 :: ym.*1).
    rewrite (firstn_cons (S n) y0), filter_cons.
    destruct (is_year_label num_str y0) eqn:Ey; case_decide; try done.
    rewrite last_cons. by destruct (last _).
Qed.

Lemma new_cols_loop_length ym k cy :
  length (new_cols_loop num_str k cy ym) = length ym.
Proof.
  revert k cy. induction ym as [|[y m] ym IH]; intros k cy; simpl; [done|].
  by rewrite IH.
Qed.

Lemma row_values_length n row : length (row_values n row) = n.
Proof. unfold row_values. by rewrite length_fmap, length_seq. Qed.

Lemma row_values_lookup n row i :
  i < n -> row_values n row !! i = Some (iloc_cell row i).
Proof.
  intros Hi. unfold row_values. rewrite list_lookup_fmap, lookup_seq_lt by done.
  reflexivity.
Qed.

Lemma new_cols_lookup n r0 r1 i :
  i < n ->
  new_cols num_str (row_values n r0) (row_values n r1) !! i
  = Some (col_label num_str i (ffill_year num_str (row_values n r0) i)
            (iloc_cell r1 i)).
Proof.
  intros Hi. unfold new_cols.
  rewrite (new_cols_loop_lookup _ 0 None i (iloc_cell r0 i) (iloc_cell r1 i)).
  - simpl. unfold carried. rewrite fst_zip by (by rewrite !row_values_length).
    by destruct (ffill_year _ _ _).
  - apply lookup_zip_Some. by rewrite !row_values_lookup.
Qed.

Lemma elem_of_positions lbl cols j :
  j ∈ positions lbl cols <-> cols !! j = Some lbl.
Proof.
  unfold positions. rewrite list_elem_of_filter, bool_decide_spec, elem_of_seq.
  split; [by intros [? _]|]. intros Hj. split; [done|].
  apply lookup_lt_Some in Hj. lia.
Qed.

Lemma elem_of_flat_map {A B} (f : A -> list B) (l : list A) (y : B) :
  y ∈ flat_map f l <-> exists x, x ∈ l /\ y ∈ f x.
Proof.
  rewrite list_elem_of_In, in_flat_map.
  split; intros [x [Hx Hy]]; exists x; by rewrite ?list_elem_of_In in *.
Qed.

Lemma elem_of_select_kept cols j :
  j ∈ select_kept cols <->
  exists lbl, cols !! j = Some lbl /\ PyStr.startswith "DROP" lbl = false.
Proof.
  unfold select_kept. rewrite elem_of_flat_map. split.
  - intros [c [Hc Hj]]. apply list_elem_of_filter in Hc as [Hc _].
    apply elem_of_positions in Hj. eauto.
  - intros [lbl [Hj Hlbl]]. exists lbl. split; [|by apply elem_of_positions].
    apply list_elem_of_filter. split; [done|]. by eapply list_elem_of_lookup_2.
Qed.

Lemma excluded_iff cols j lbl :
  cols !! j = Some lbl ->
  excluded cols j <-> PyStr.startswith "DROP" lbl = true.
Proof.
  intros Hj. unfold excluded. rewrite elem_of_select_kept. split.
  - intros Hn. destruct (PyStr.startswith "DROP" lbl) eqn:E; [done|].
    destruct Hn. eauto.
  - intros Hs [lbl' [Hj' Hn]]. congruence.
Qed.

(** The labels of the columns, against the forward-filled year of the
    specification. *)
Lemma new_cols_labels (n : nat) (r0 r1 : list cell) :
  let years := row_values n r0 in
  let cols := new_cols num_str years (row_values n r1) in
  length cols = n /\
  (forall i, i < n -> i = 0%nat -> cols !! i = Some "Departamento") /\
  (forall i cy,
     i < n -> i <> 0%nat ->
     ffill_year num_str years i = Some cy ->
     truthy cy = true -> notna (iloc_cell r1 i) = true ->
     cols !! i
     = Some (str_cell num_str cy +:+ "_" +:+ str_cell num_str (iloc_cell r1 i))) /\
  (forall i,
     i < n -> i <> 0%nat ->
     ffill_year num_str years i = None \/
     (exists cy, ffill_year num_str years i = Some cy /\ truthy cy = false) \/
     iloc_cell r1 i = NaN ->
     cols !! i = Some ("DROP_" +:+ pretty i) /\ excluded cols i) /\
  (forall i lbl,
     cols !! i = Some lbl ->
     excluded cols i <-> PyStr.startswith "DROP" lbl = true).
Proof.
  intros years cols. split; [|split; [|split; [|split]]].
  - unfold cols, new_cols. rewrite new_cols_loop_length, length_zip.
    unfold years. rewrite !row_values_length. lia.
  - intros i Hi ->. unfold cols, years. by rewrite new_cols_lookup.
  - intros i cy Hi Hi0 Hcy Ht Hm. unfold cols, years. rewrite new_cols_lookup by done.
    fold years. rewrite Hcy. unfold col_label.
    destruct i; [done|]. simpl Nat.eqb. cbv iota. by rewrite Ht, Hm.
  - intros i Hi Hi0 Hcase.
    assert (cols !! i = Some ("DROP_" +:+ pretty i)) as Hlbl.
    { unfold cols, years. rewrite new_cols_lookup by done. fold years. f_equal.
      unfold col_label. destruct i; [done|]. simpl Nat.eqb. cbv iota.
      destruct Hcase as [->|[[cy [-> Hf]]| ->]]; [done|by rewrite Hf|].
      destruct (ffill_year _ _ _); [|done]. by rewrite andb_false_r. }
    split; [done|]. by apply (excluded_iff _ _ _ Hlbl).
  - intros i lbl. apply excluded_iff.
Qed.

End ColumnLabels.

(** ** Shape B: the melt *)

(** The string holds the character [c]. *)
Fixpoint has_char (c : ascii) (s : string) : bool :=
  match s with
  | EmptyString => false
  | String d s' => Ascii.eqb d c || has_char c s'
  end.

Lemma has_char_app c s1 s2 :
  has_char c (s1 +:+ s2) = has_char c s1 || has_char c s2.
Proof.
  induction s1 as [|d s1 IH]; simpl; [done|]. by rewrite IH, orb_assoc.
Qed.

Lemma filter_none {A} (P : A -> Prop) `{forall x, Decision (P x)} (l : list A) :
  (forall x, x ∈ l -> ~ P x) -> filter P l = [].
Proof.
  induction l as [|x l IH]; intros Hall; [done|].
  rewrite filter_cons_False by (apply Hall; by left).
  apply IH. intros y Hy. apply Hall. by right.
Qed.

Lemma filter_all {A} (P : A -> Prop) `{forall x, Decision (P x)} (l : list A) :
  (forall x, x ∈ l -> P x) -> filter P l = l.
Proof.
  induction l as [|x l IH]; intros Hall; [done|].
  rewrite filter_cons_True by (apply Hall; by left).
  f_equal. apply IH. intros y Hy. apply Hall. by right.
Qed.

Section MeltContribuyentes.
Variable num_str : Q -> string.
Variable parse_num : string -> option Q.

Lemma col_label_not_Departamento i cy m :
  i <> 0%nat -> col_label num_str i cy m <> "Departamento".
Proof.
  intros Hi. unfold col_label. destruct i; [done|]. simpl Nat.eqb. cbv iota.
  assert (forall s, "DROP_" +:+ s <> "Departamento") as Hdrop by (intros s; discriminate).
  destruct cy as [cy|]; [|apply Hdrop].
  destruct (truthy cy && notna m); [|apply Hdrop].
  intros Heq. apply (f_equal (has_char "_")) in Heq.
  rewrite !has_char_app in Heq. simpl in Heq.
  rewrite orb_true_r in Heq. discriminate.
Qed.

(** The labels built by the loop: "Departamento" first, and nowhere else. *)
Lemma new_cols_shape n r0 r1 :
  0 < n ->
  exists rest,
    new_cols num_str (row_values n r0) (row_values n r1) = "Departamento" :: rest /\
    "Departamento" ∉ rest.
Proof.
  intros Hn.
  destruct (new_cols num_str (row_values n r0) (row_values n r1)) as [|c0 rest] eqn:E.
  { apply (f_equal length) in E. unfold new_cols in E.
    rewrite new_cols_loop_length, length_zip, !row_values_length in E.
    simpl in E. lia. }
  exists rest. split.
  - pose proof (new_cols_lookup num_str n r0 r1 0 Hn) as H0. rewrite E in H0.
    simpl in H0. by injection H0 as ->.
  - intros Hin. apply list_elem_of_lookup in Hin as [i Hi].
    assert (S i < n) as Hlt.
    { apply lookup_lt_Some in Hi.
      apply (f_equal length) in E. unfold new_cols in E.
      rewrite new_cols_loop_length, length_zip, !row_values_length in E.
      simpl in E. lia. }
    pose proof (new_cols_lookup num_str n r0 r1 (S i) Hlt) as HS. rewrite E in HS.
    simpl in HS. rewrite Hi in HS. injection HS as HS.
    symmetry in HS. by apply col_label_not_Departamento in HS.
Qed.

Lemma positions_head lbl rest : lbl ∉ rest -> positions lbl (lbl :: rest) = [0%nat].
Proof.
  intros Hn. unfold positions. simpl length. rewrite <- cons_seq.
  rewrite filter_cons_True by (by rewrite bool_decide_spec).
  f_equal. apply filter_none. intros j Hj. rewrite bool_decide_spec.
  apply elem_of_seq in Hj. destruct j as [|j]; [lia|]. simpl.
  intros Hl. apply Hn. by eapply list_elem_of_lookup_2.
Qed.

(** The columns the selection keeps beside the region column. *)
Definition value_columns (cols : list string) : list nat :=
  filter (fun j => bool_decide (default "" (cols !! j) <> "Departamento"))
         (select_kept cols).

Lemma melt_contribuyentes_new_cols n r0 r1 body :
  0 < n ->
  let cols := new_cols num_str (row_values n r0) (row_values n r1) in
  melt_contribuyentes cols (select_kept cols) body
  = Ok (flat_map (fun j =>
          (fun row => {| cm_Departamento := iloc_cell row 0;
                         cm_Year_Mes := default "" (cols !! j);
                         cm_Contribuyentes := iloc_cell row j |}) <$> body)
        (value_columns cols)).
Proof.
  intros Hn cols. destruct (new_cols_shape n r0 r1 Hn) as [rest [Hcols Hrest]].
  fold cols in Hcols. unfold melt_contribuyentes.
  assert (filter (fun j => bool_decide (default "" (cols !! j) = "Departamento"))
            (select_kept cols) = [0%nat]) as ->; [|done].
  rewrite Hcols. unfold select_kept.
  rewrite filter_cons_True by (by vm_compute). cbn [flat_map].
  rewrite positions_head by done. rewrite filter_app.
  rewrite filter_cons_True by (by vm_compute). rewrite filter_nil. simpl. f_equal.
  apply filter_none. intros j Hj. rewrite bool_decide_spec.
  apply elem_of_flat_map in Hj as [c [Hc Hj]].
  apply list_elem_of_filter in Hc as [_ Hc].
  apply elem_of_positions in Hj. rewrite Hj. simpl. intros ->. done.
Qed.

Lemma elem_of_value_columns cols j :
  j ∈ value_columns cols <->
  exists lbl, cols !! j = Some lbl /\ PyStr.startswith "DROP" lbl = false /\
              lbl <> "Departamento".
Proof.
  unfold value_columns. rewrite list_elem_of_filter, bool_decide_spec, elem_of_select_kept.
  split.
  - intros [Hne [lbl [Hj Hd]]]. rewrite Hj in Hne. eauto.
  - intros [lbl [Hj [Hd Hne]]]. rewrite Hj. eauto.
Qed.

Lemma split_and_clean_elem l rows r :
  split_and_clean parse_num l = Ok rows -> r ∈ rows ->
  exists x anio mes,
    x ∈ l /\ PyStr.split "_" (cm_Year_Mes x) = [anio; mes] /\
    r = limpiar_cont_row parse_num x anio mes.
Proof.
  revert rows. induction l as [|x l IH]; intros rows Hok Hr; simpl in Hok.
  { injection Hok as <-. by apply elem_of_nil in Hr. }
  destruct (PyStr.split "_" (cm_Year_Mes x)) as [|anio [|mes [|? ?]]] eqn:E; try done.
  destruct (split_and_clean parse_num l) as [rows'|] eqn:E'; [|done].
  simpl in Hok. injection Hok as <-.
  apply elem_of_cons in Hr as [->|Hr].
  - exists x, anio, mes. split; [by left|done].
  - destruct (IH rows' eq_refl Hr) as (x' & a & m & Hx' & Hs & ->).
    exists x', a, m. split; [by right|done].
Qed.



End MeltContribuyentes.

(** The long frame of the taxpayer grid: one record per kept value column
    and data row. *)
Definition cont_long (cols : list string) (body : DataFrame) : list ContMelt :=
  flat_map (fun j =>
      (fun row => {| cm_Departamento := iloc_cell row 0;
                     cm_Year_Mes := default "" (cols !! j);
                     cm_Contribuyentes := iloc_cell row j |}) <$> body)
    (value_columns cols).

Lemma elem_of_cont_long cols body x :
  x ∈ cont_long cols body <->
  exists row j lbl,
    row ∈ body /\ cols !! j = Some lbl /\
    PyStr.startswith "DROP" lbl = false /\ lbl <> "Departamento" /\
    x = {| cm_Departamento := iloc_cell row 0;
           cm_Year_Mes := lbl;
           cm_Contribuyentes := iloc_cell row j |}.
Proof.
  unfold cont_long. rewrite elem_of_flat_map. split.
  - intros [j [Hj Hx]]. apply elem_of_value_columns in Hj as (lbl & Hl & Hd & Hne).
    apply list_elem_of_fmap in Hx as [row [-> Hrow]].
    exists row, j, lbl. rewrite Hl. done.
  - intros (row & j & lbl & Hrow & Hl & Hd & Hne & ->).
    exists j. split; [apply elem_of_value_columns; eauto|].
    apply list_elem_of_fmap. exists row. by rewrite Hl.
Qed.

Section LimpiarContribuyentes.
Variable num_str : Q -> string.
Variable parse_num : string -> option Q.

(** The column labels [limpiar_contribuyentes] builds for a grid. *)
Definition cont_cols (df_raw : DataFrame) (r0 r1 : list cell) : list string :=
  new_cols num_str (row_values (ncols df_raw) r0) (row_values (ncols df_raw) r1).

Lemma limpiar_contribuyentes_unfold df_raw r0 r1 :
  df_raw !! 0%nat = Some r0 -> df_raw !! 1%nat = Some r1 -> 0 < ncols df_raw ->
  limpiar_contribuyentes num_str parse_num df_raw
  = match cont_long (cont_cols df_raw r0 r1) (drop 2 df_raw) with
    | [] => Raise ValueError
    | df_long => split_and_clean parse_num df_long
    end.
Proof.
  intros H0 H1 Hn. unfold limpiar_contribuyentes. rewrite H0, H1. simpl.
  rewrite melt_contribuyentes_new_cols by done. simpl.
  unfold cont_cols, cont_long. by destruct (flat_map _ _).
Qed.

Lemma limpiar_contribuyentes_inv df_raw rows :
  limpiar_contribuyentes num_str parse_num df_raw = Ok rows ->
  exists r0 r1,
    df_raw !! 0%nat = Some r0 /\ df_raw !! 1%nat = Some r1 /\ 0 < ncols df_raw /\
    cont_long (cont_cols df_raw r0 r1) (drop 2 df_raw) <> [] /\
    split_and_clean parse_num (cont_long (cont_cols df_raw r0 r1) (drop 2 df_raw))
    = Ok rows.
Proof.
  intros Hok.
  destruct (df_raw !! 0%nat) as [r0|] eqn:H0;
    [|by unfold limpiar_contribuyentes in Hok; rewrite H0 in Hok].
  destruct (df_raw !! 1%nat) as [r1|] eqn:H1;
    [|by unfold limpiar_contribuyentes in Hok; rewrite H0, H1 in Hok].
  destruct (decide (ncols df_raw = 0%nat)) as [Hz|Hnz].
  { unfold limpiar_contribuyentes in Hok. rewrite H0, H1, Hz in Hok. done. }
  exists r0, r1. rewrite (limpiar_contribuyentes_unfold _ r0 r1) in Hok by (done || lia).
  repeat split; [lia| |]; by destruct (cont_long _ _).
Qed.

End LimpiarContribuyentes.

(** C10, as the source has it.  Column 0 is labelled "Departamento" whatever
    rows 0 and 1 hold.  Every other column [i] whose forward-filled year is
    present and true in Python's sense and whose month cell is not empty is
    labelled year, "_", month; any other column is labelled "DROP_i".  The
    columns excluded are those whose label begins with "DROP": so a column
    that lacks the year or lacks the month is excluded.  The records of the
    relation come from the rows of index 2 and more, one per such row and
    kept column other than column 0. *)
Theorem shape_b_labels_forward_filled_year_and_month
    (num_str : Q -> string) (parse_num : string -> option Q)
    (df_raw : DataFrame) (r0 r1 : list cell) :
  let n := ncols df_raw in
  let years := row_values n r0 in
  let cols := new_cols num_str years (row_values n r1) in
  length cols = n /\
  (forall i, i < n -> i = 0%nat -> cols !! i = Some "Departamento") /\
  (forall i cy,
     i < n -> i <> 0%nat ->
     ffill_year num_str years i = Some cy ->
     truthy cy = true -> notna (iloc_cell r1 i) = true ->
     cols !! i
     = Some (str_cell num_str cy +:+ "_" +:+ str_cell num_str (iloc_cell r1 i))) /\
  (forall i,
     i < n -> i <> 0%nat ->
     ffill_year num_str years i = None \/
     (exists cy, ffill_year num_str years i = Some cy /\ truthy cy = false) \/
     iloc_cell r1 i = NaN ->
     cols !! i = Some ("DROP_" +:+ pretty i) /\ excluded cols i) /\
  (forall i lbl,
     cols !! i = Some lbl ->
     excluded cols i <-> PyStr.startswith "DROP" lbl = true) /\
  (forall rows r,
     df_raw !! 0%nat = Some r0 -> df_raw !! 1%nat = Some r1 ->
     limpiar_contribuyentes num_str parse_num df_raw = Ok rows ->
     r ∈ rows ->
     exists row j anio mes,
       row ∈ drop 2 df_raw /\ j <> 0%nat /\
       cols !! j = Some (c_Year_Mes r) /\ ~ excluded cols j /\
       PyStr.split "_" (c_Year_Mes r) = [anio; mes] /\
       r = limpiar_cont_row parse_num
             {| cm_Departamento := iloc_cell row 0;
                cm_Year_Mes := c_Year_Mes r;
                cm_Contribuyentes := iloc_cell row j |} anio mes).
Proof.
  intros n years cols.
  destruct (new_cols_labels num_str n r0 r1) as (H1 & H2 & H3 & H4 & H5).
  do 5 (split; [assumption|]).
  intros rows r Hr0 Hr1 Hok Hr.
  apply limpiar_contribuyentes_inv in Hok as (r0' & r1' & Hr0' & Hr1' & Hn & _ & Hok).
  rewrite Hr0 in Hr0'. injection Hr0' as <-. rewrite Hr1 in Hr1'. injection Hr1' as <-.
  destruct (split_and_clean_elem _ _ _ _ Hok Hr) as (x & anio & mes & Hx & Hs & ->).
  apply elem_of_cont_long in Hx as (row & j & lbl & Hrow & Hl & Hd & Hne & ->).
  exists row, j, anio, mes. simpl in *.
  change (cols !! j = Some lbl) in Hl.
  split; [done|]. split.
  { intros ->. assert (cols !! 0%nat = Some "Departamento") as H0 by (by apply H2).
    rewrite H0 in Hl. by injection Hl as <-. }
  split; [exact Hl|]. split; [|done].
  intros Hex. apply (H5 j lbl Hl) in Hex. congruence.
Qed.

(** C10, as stated, fails: column 2 of this header has a forward-filled year
    (2024) and no month, so it does not lack both; the source labels it
    "DROP_2" and excludes it. *)
Lemma column_with_year_and_no_month_is_excluded :
  let cols := new_cols Decimal.num_str years_row_2024 months_row_Ene in
  ffill_year Decimal.num_str years_row_2024 2 = Some (Num 2024) /\
  cols !! 2%nat = Some "DROP_2" /\
  excluded cols 2 /\
  ~ spec_excluded Decimal.num_str years_row_2024 months_row_Ene 2 /\
  ~ (forall years months i,
       excluded (new_cols Decimal.num_str years months) i <->
       spec_excluded Decimal.num_str years months i).
Proof.
  intros cols.
  assert (cols !! 2%nat = Some "DROP_2") as Hl by (by vm_compute).
  assert (excluded cols 2) as Hex by (by apply (excluded_iff _ _ _ Hl)).
  assert (~ spec_excluded Decimal.num_str years_row_2024 months_row_Ene 2) as Hs.
  { intros [Hy _]. vm_compute in Hy. discriminate. }
  split; [by vm_compute|]. do 3 (split; [assumption|]).
  intros Hall. apply Hs, Hall, Hex.
Qed.

(** The labels of a grid with a sparse year row. *)
Lemma shape_b_labels_witness :
  new_cols Decimal.num_str
    (row_values 4 [NaN; Num 2023; NaN; Num 2024])
    (row_values 4 [Text "Region"; Text "Nov."; Text "Dic."; Text "Ene."]) !! 2%nat
  = Some "2023_Dic.".
Proof.
  pose (df := [[NaN; Num 2023; NaN; Num 2024];
               [Text "Region"; Text "Nov."; Text "Dic."; Text "Ene."]] : DataFrame).
  apply (proj1 (proj2 (proj2
    (shape_b_labels_forward_filled_year_and_month Decimal.num_str Decimal.parse_num
       df [NaN; Num 2023; NaN; Num 2024]
       [Text "Region"; Text "Nov."; Text "Dic."; Text "Ene."])))
    2%nat (Num 2023)).
  - vm_compute. lia.
  - lia.
  - by vm_compute.
  - by vm_compute.
  - by vm_compute.
Defined.

(** ** Shape A: the melt *)



(** The long frame of the collection grid: one record per value column and
    data row. *)
Definition trib_long (columns : list string) (pm pa : nat) (body : DataFrame)
  : list TribMelt :=
  flat_map (fun j =>
      (fun row => {| tm_Mes := iloc_cell row pm;
                     tm_Anio := iloc_cell row pa;
                     tm_Departamento := default "" (columns !! j);
                     tm_Recaudacion := iloc_cell row j |}) <$> body)
    (drop 2 (unique (pm :: pa ::
       flat_map (fun v => positions v columns) (value_vars columns)))).


Lemma melt_tributos_inv columns body df_long :
  melt_tributos columns body = Ok df_long ->
  exists pm pa,
    positions "Mes" columns = [pm] /\ positions "Año" columns = [pa] /\
    df_long = trib_long columns pm pa body.
Proof.
  unfold melt_tributos.
  destruct (positions "Mes" columns) as [|pm [|? ?]];
    destruct (positions "Año" columns) as [|pa [|? ?]]; try done.
  intros Heq. injection Heq as <-. by exists pm, pa.
Qed.


Section LimpiarTributos.
Variable num_str : Q -> string.
Variable parse_num : string -> option Q.

Lemma limpiar_tributos_inv df_raw rows :
  limpiar_tributos num_str parse_num df_raw = Ok rows ->
  exists hdr columns pm pa,
    df_raw !! header_idx num_str df_raw = Some hdr /\
    rename_fallback (header_labels num_str (ncols df_raw) hdr) = Ok columns /\
    positions "Mes" columns = [pm] /\ positions "Año" columns = [pa] /\
    rows = dropna_Anio (limpiar_trib_row parse_num <$>
             trib_long columns pm pa (drop (S (header_idx num_str df_raw)) df_raw)).
Proof.
  unfold limpiar_tributos.
  destruct (df_raw !! header_idx num_str df_raw) as [hdr|]; [|done]. simpl.
  destruct (rename_fallback _) as [columns|] eqn:Ec; [|done]. simpl.
  destruct (melt_tributos _ _) as [df_long|] eqn:E; [|done]. simpl.
  intros Heq. injection Heq as <-.
  apply melt_tributos_inv in E as (pm & pa & Hm & Ha & ->).
  by exists hdr, columns, pm, pa.
Qed.


(** Every record of the collection relation has a year that parsed. *)
Lemma limpiar_tributos_anio df_raw rows r :
  limpiar_tributos num_str parse_num df_raw = Ok rows -> r ∈ rows ->
  is_Some (t_Anio r).
Proof.
  intros Hok Hr. apply limpiar_tributos_inv in Hok as (? & ? & ? & ? & _ & _ & _ & _ & ->).
  by apply list_elem_of_filter in Hr as [? _].
Qed.

End LimpiarTributos.

(** ** The reshapers on value cells and on years *)

Section Reshapers.
Variable num_str : Q -> string.
Variable parse_num : string -> option Q.

Lemma cont_cols_Departamento df_raw r0 r1 j lbl :
  cont_cols num_str df_raw r0 r1 !! j = Some lbl ->
  j = 0%nat <-> lbl = "Departamento".
Proof.
  intros Hj. unfold cont_cols in Hj.
  assert (0 < ncols df_raw) as Hn.
  { apply lookup_lt_Some in Hj. unfold new_cols in Hj.
    rewrite new_cols_loop_length, length_zip, !row_values_length in Hj. lia. }
  destruct (new_cols_shape num_str (ncols df_raw) r0 r1 Hn) as [rest [Hc Hrest]].
  rewrite Hc in Hj. split.
  - intros ->. simpl in Hj. by injection Hj as <-.
  - intros ->. destruct j as [|j]; [done|]. simpl in Hj.
    destruct Hrest. by eapply list_elem_of_lookup_2.
Qed.


End Reshapers.


(** C6 on the source.  [limpiar_tributos] drops the records whose year does
    not parse: every record it returns has a numeric year.
    [limpiar_contribuyentes] converts the year and keeps the record: on
    [grid_cont_year_text] the relation holds a record whose year is NaN. *)
Theorem taxpayer_record_with_unparsable_year_is_kept :
  (forall num_str parse_num df_raw rows r,
     limpiar_tributos num_str parse_num df_raw = Ok rows -> r ∈ rows ->
     is_Some (t_Anio r)) /\
  limpiar_contribuyentes Decimal.num_str Decimal.parse_num grid_cont_year_text
  = Ok [ {| c_Departamento := Some "LIMA";
            c_Year_Mes := "FY24_Ene.";
            c_Contribuyentes := 50;
            c_Anio := None;
            c_Mes := "Enero" |} ].
Proof.
  split; [exact limpiar_tributos_anio|]. by vm_compute.
Qed.

(** ** Aggregation and ranking *)

Lemma elem_of_insert_key x k ks : x ∈ insert_key k ks <-> x = k \/ x ∈ ks.
Proof.
  induction ks as [|k' ks IH]; simpl.
  - rewrite list_elem_of_singleton, elem_of_nil. tauto.
  - destruct (String.compare k k') eqn:E.
    + apply String.compare_eq_iff in E as ->. rewrite elem_of_cons. tauto.
    + rewrite !elem_of_cons. tauto.
    + rewrite !elem_of_cons, IH. tauto.
Qed.

Lemma elem_of_group_keys k df :
  k ∈ group_keys df <-> exists r, r ∈ df /\ m_Departamento r = k.
Proof.
  unfold group_keys. induction df as [|r df IH]; simpl.
  - rewrite elem_of_nil. split; [done|]. intros [? [H _]]. by apply elem_of_nil in H.
  - rewrite elem_of_insert_key, IH. split.
    + intros [->|[r' [Hr' <-]]]; [exists r; split; [by left|done]|].
      exists r'. split; [by right|done].
    + intros [r' [Hr' <-]]. apply elem_of_cons in Hr' as [->|Hr']; [by left|].
      right. by exists r'.
Qed.

Lemma elem_of_df_ranking r df :
  r ∈ df_ranking df <->
  exists m, m ∈ df /\ r = ranking_row (m_Departamento m) df.
Proof.
  unfold df_ranking. rewrite list_elem_of_fmap. split.
  - intros [k [-> Hk]]. apply elem_of_group_keys in Hk as [m [Hm <-]]. eauto.
  - intros [m [Hm ->]]. eexists. split; [done|]. apply elem_of_group_keys. eauto.
Qed.

Lemma filter_bool_split {A} (f : A -> bool) (l : list A) :
  filter (fun x => f x = false) l ++ filter (fun x => f x = true) l ≡ₚ l.
Proof.
  induction l as [|x l IH]; [done|].
  rewrite !filter_cons. destruct (f x) eqn:E; repeat case_decide; try done.
  - rewrite <- Permutation_middle. by f_equiv.
  - simpl. by f_equiv.
Qed.

Section RankingFacts.
Context `{Argsort}.

(** The rows with a number as metric, in the order the sort leaves them. *)
Definition sorted_part (rows : list RankingRow) : list RankingRow :=
  let non_nans := reverse (filter (fun r => isna (r_Soles_por_Contribuyente r) = false) rows) in
  reverse (take_idx non_nans (argsort (r_Soles_por_Contribuyente <$> non_nans))).

Lemma sort_values_desc_split rows :
  sort_values_desc rows
  = sorted_part rows ++ filter (fun r => isna (r_Soles_por_Contribuyente r) = true) rows.
Proof. reflexivity. Qed.

Lemma sorted_part_perm rows :
  sorted_part rows ≡ₚ filter (fun r => isna (r_Soles_por_Contribuyente r) = false) rows.
Proof.
  unfold sorted_part. rewrite reverse_Permutation.
  rewrite take_idx_perm; [apply reverse_Permutation|].
  rewrite argsort_perm. by rewrite length_fmap.
Qed.

Lemma sort_values_desc_perm rows : sort_values_desc rows ≡ₚ rows.
Proof.
  rewrite sort_values_desc_split, sorted_part_perm. apply filter_bool_split.
Qed.



Lemma procesar_logica_inv df_trib df_cont anio_target rows :
  procesar_logica df_trib df_cont anio_target = Some rows ->
  filter (fun r => anio_is anio_target r = true) (merge df_trib df_cont) <> [] /\
  rows = sort_values_desc (df_ranking
           (filter (fun r => anio_is anio_target r = true) (merge df_trib df_cont))).
Proof.
  unfold procesar_logica. cbv zeta.
  destruct (filter _ (merge df_trib df_cont)); [done|].
  intros Hok. injection Hok as <-. done.
Qed.

End RankingFacts.

Lemma elem_of_merge m df_trib df_cont :
  m ∈ merge df_trib df_cont <->
  exists t c, t ∈ df_trib /\ c ∈ df_cont /\ key_eqb t c = true /\ m = merged t c.
Proof.
  unfold merge. rewrite elem_of_flat_map. split.
  - intros [t [Ht Hm]]. apply list_elem_of_fmap in Hm as [c [-> Hc]].
    apply list_elem_of_filter in Hc as [Hk Hc]. by exists t, c.
  - intros (t & c & Ht & Hc & Hk & ->). exists t. split; [done|].
    apply list_elem_of_fmap. exists c. split; [done|].
    by apply list_elem_of_filter.
Qed.







(** ** The mean of the taxpayer counts *)




Section TaxpayerCounts.
Variable num_str : Q -> string.
Variable parse_num : string -> option Q.


End TaxpayerCounts.





(** ** Available years *)

(** The list holds a year equal to [y]. *)
Definition has_anio (y : Q) (l : list Q) : Prop :=
  exists y', y' ∈ l /\ (y' == y)%Q.

Lemma has_anio_nil y : ~ has_anio y [].
Proof. intros [y' [H _]]. by apply elem_of_nil in H. Qed.

Lemma has_anio_cons y x l : has_anio y (x :: l) <-> (x == y)%Q \/ has_anio y l.
Proof.
  unfold has_anio. split.
  - intros [y' [Hin Hy]]. apply elem_of_cons in Hin as [->|Hin]; [by left|].
    right. eauto.
  - intros [Hx|[y' [Hin Hy]]].
    + exists x. split; [by left|done].
    + exists y'. split; [by right|done].
Qed.

Lemma has_anio_insert y x ys :
  has_anio y (insert_anio x ys) <-> (x == y)%Q \/ has_anio y ys.
Proof.
  induction ys as [|y0 ys IH]; simpl; [apply has_anio_cons|].
  destruct (x ?= y0)%Q eqn:E.
  - apply Qeq_alt in E. rewrite has_anio_cons. split; [tauto|].
    intros [Hx|Hr]; [|done]. left. by rewrite <- E.
  - rewrite !has_anio_cons, IH. tauto.
  - rewrite !has_anio_cons. tauto.
Qed.

Lemma has_anio_sorted_desc y l : has_anio y (sorted_desc l) <-> has_anio y l.
Proof.
  unfold sorted_desc. induction l as [|x l IH]; simpl; [done|].
  by rewrite has_anio_insert, has_anio_cons, IH.
Qed.

Lemma insert_anio_hd a x ys :
  (x < a)%Q -> HdRel (fun p q => q < p)%Q a ys ->
  HdRel (fun p q => q < p)%Q a (insert_anio x ys).
Proof.
  intros Hx Hhd. destruct ys as [|y0 ys]; simpl; [by constructor|].
  destruct (x ?= y0)%Q; [done| |by constructor].
  constructor. by inversion Hhd.
Qed.

Lemma insert_anio_sorted x ys :
  Sorted (fun p q => q < p)%Q ys -> Sorted (fun p q => q < p)%Q (insert_anio x ys).
Proof.
  induction 1 as [|y0 ys Hs IH Hhd]; simpl; [by repeat constructor|].
  destruct (x ?= y0)%Q eqn:E.
  - by constructor.
  - apply Qlt_alt in E. constructor; [exact IH|]. by apply insert_anio_hd.
  - apply Qgt_alt in E. constructor; [by constructor|]. by constructor.
Qed.

Lemma sorted_desc_sorted l : Sorted (fun p q => q < p)%Q (sorted_desc l).
Proof.
  unfold sorted_desc. induction l as [|x l IH]; simpl; [constructor|].
  by apply insert_anio_sorted.
Qed.

Lemma has_anio_disponibles y df_trib df_cont :
  has_anio y (anios_disponibles df_trib df_cont) <->
  (exists t yt, t ∈ df_trib /\ t_Anio t = Some yt /\ (yt == y)%Q) /\
  (exists c yc, c ∈ df_cont /\ c_Anio c = Some yc /\ (yc == y)%Q).
Proof.
  unfold anios_disponibles. rewrite has_anio_sorted_desc. unfold has_anio. split.
  - intros [y' [Hin Hy]]. apply list_elem_of_filter in Hin as [Hex Hin].
    apply list_elem_of_omap in Hin as [t [Ht Hyt]].
    apply existsb_exists in Hex as [yc [Hyc Heq]].
    apply list_elem_of_In, list_elem_of_omap in Hyc as [c [Hc Hcy]].
    apply Qeq_bool_eq in Heq. split.
    + by exists t, y'.
    + exists c, yc. repeat split; [done..|]. by rewrite <- Heq.
  - intros [(t & yt & Ht & Hyt & Hy) (c & yc & Hc & Hyc & Hy')].
    exists yt. split; [|done]. apply list_elem_of_filter. split.
    + apply existsb_exists. exists yc. split.
      * apply list_elem_of_In, list_elem_of_omap. eauto.
      * apply Qeq_bool_iff. by rewrite Hy, Hy'.
    + apply list_elem_of_omap. eauto.
Qed.

Lemma anio_eqb_Some x o :
  anio_eqb (Some x) o = true -> exists y, o = Some y /\ (x == y)%Q.
Proof.
  destruct o as [y|]; simpl; [|done]. intros Heq. exists y.
  split; [done|]. by apply Qeq_bool_eq.
Qed.

(** C3, as the source has it.  The available years are the years present
    in both relations, each once, in descending order, computed from the
    two relations alone; a target year that is not among them makes
    [procesar_logica] return [None]; the list is non-empty exactly when
    some year is present in both relations. *)
Theorem available_years_intersection_descending
    (AS : Argsort) (df_trib : list TribRow) (df_cont : list ContRow) :
  (forall y,
     has_anio y (anios_disponibles df_trib df_cont) <->
     (exists t yt, t ∈ df_trib /\ t_Anio t = Some yt /\ (yt == y)%Q) /\
     (exists c yc, c ∈ df_cont /\ c_Anio c = Some yc /\ (yc == y)%Q)) /\
  Sorted (fun p q => q < p)%Q (anios_disponibles df_trib df_cont) /\
  (forall anio_target,
     ~ has_anio (inject_Z anio_target) (anios_disponibles df_trib df_cont) ->
     procesar_logica df_trib df_cont anio_target = None) /\
  (anios_disponibles df_trib df_cont <> [] <->
   exists t c yt yc,
     t ∈ df_trib /\ c ∈ df_cont /\
     t_Anio t = Some yt /\ c_Anio c = Some yc /\ (yt == yc)%Q).
Proof.
  split; [intros y; apply has_anio_disponibles|].
  split; [apply sorted_desc_sorted|].
  split.
  - intros anio_target Hno. unfold procesar_logica. cbv zeta.
    destruct (filter _ (merge df_trib df_cont)) as [|m l] eqn:E; [done|].
    destruct Hno.
    assert (m ∈ filter (fun r => anio_is anio_target r = true) (merge df_trib df_cont))
      as Hm by (rewrite E; by left).
    apply list_elem_of_filter in Hm as [Hy Hm].
    apply elem_of_merge in Hm as (t & c & Ht & Hc & Hk & ->).
    unfold anio_is in Hy. simpl in Hy.
    destruct (t_Anio t) as [yt|] eqn:Eyt; [|done]. apply Qeq_bool_eq in Hy.
    unfold key_eqb in Hk. rewrite !andb_true_iff in Hk. destruct Hk as [[_ Hk] _].
    rewrite Eyt in Hk. apply anio_eqb_Some in Hk as [yc [Hyc Heq]].
    apply has_anio_disponibles. split.
    + by exists t, yt.
    + exists c, yc. repeat split; [done..|]. by rewrite <- Heq.
  - split.
    + intros Hne. destruct (anios_disponibles df_trib df_cont) as [|y l] eqn:E; [done|].
      assert (has_anio y (anios_disponibles df_trib df_cont)) as Hy.
      { rewrite E. exists y. split; [by left|reflexivity]. }
      apply has_anio_disponibles in Hy as [(t & yt & Ht & Hyt & Hy) (c & yc & Hc & Hyc & Hy')].
      exists t, c, yt, yc. repeat split; [done..|]. by rewrite Hy, Hy'.
    + intros (t & c & yt & yc & Ht & Hc & Hyt & Hyc & Heq) Hnil.
      assert (has_anio yt (anios_disponibles df_trib df_cont)) as Hy.
      { apply has_anio_disponibles. split.
        - exists t, yt. split; [done|]. split; [done|reflexivity].
        - exists c, yc. split; [done|]. split; [done|]. by rewrite Heq. }
      rewrite Hnil in Hy. by apply has_anio_nil in Hy.
Qed.

(** C3, as stated, fails on its last part: both sources hold a year that
    parses (2023 and 2024), no year is common to them, and the available
    years are empty. *)
Lemma available_years_empty_though_sources_have_years :
  exists df_trib df_cont,
    limpiar_tributos Decimal.num_str Decimal.parse_num grid_trib_2023 = Ok df_trib /\
    limpiar_contribuyentes Decimal.num_str Decimal.parse_num grid_cont_scenario1
    = Ok df_cont /\
    (exists t, t ∈ df_trib /\ t_Anio t = Some 2023%Q) /\
    (exists c, c ∈ df_cont /\ c_Anio c = Some 2024%Q) /\
    anios_disponibles df_trib df_cont = [] /\
    ~ (forall (trib : list TribRow) (cont : list ContRow),
         (exists t, t ∈ trib /\ is_Some (t_Anio t)) \/
         (exists c, c ∈ cont /\ is_Some (c_Anio c)) ->
         anios_disponibles trib cont <> []).
Proof.
  eexists _, _. split; [by vm_compute|]. split; [by vm_compute|].
  split; [eexists; split; [apply list_elem_of_here|reflexivity]|].
  split; [eexists; split; [apply list_elem_of_here|reflexivity]|].
  split; [by vm_compute|].
  intros Hall.
  apply (Hall [ {| t_Mes := Text "Enero"; t_Anio := Some 2023%Q;
                   t_Departamento := "LIMA"; t_Recaudacion := 100 |} ]
              [ {| c_Departamento := Some "LIMA"; c_Year_Mes := "2024_Ene.";
                   c_Contribuyentes := 50; c_Anio := Some 2024%Q; c_Mes := "Enero" |} ]).
  - left. eexists. split; [apply list_elem_of_here|by eexists].
  - by vm_compute.
Qed.

Lemma available_years_witness :
  anios_disponibles trib_2023_2024 cont_2023_2024 = [2024%Q; 2023%Q] /\
  @procesar_logica argsort_stable trib_2023_2024 cont_2023_2024 2019 = None.
Proof.
  split; [by vm_compute|].
  apply (proj1 (proj2 (proj2 (available_years_intersection_descending
                                argsort_stable trib_2023_2024 cont_2023_2024)))).
  intros [y [Hin Hy]]. vm_compute in Hin.
  apply elem_of_cons in Hin as [->|Hin]; [by vm_compute in Hy|].
  apply list_elem_of_singleton in Hin as ->. by vm_compute in Hy.
Defined.

(** * Further properties of the pipeline *)

(** ** The join and the groups of [procesar_logica] *)

(** The order of the group keys: [String.compare] says "less". *)
Definition key_lt (a b : string) : Prop := String.compare a b = Lt.

#[global] Instance key_lt_trans : Transitive key_lt.
Proof.
  intros a b c Hab Hbc. unfold key_lt in *.
  apply OrderedTypeEx.String_as_OT.cmp_lt in Hab, Hbc.
  apply OrderedTypeEx.String_as_OT.cmp_lt.
  by eapply OrderedTypeEx.String_as_OT.lt_trans.
Qed.

Lemma key_lt_irrefl a : ~ key_lt a a.
Proof.
  unfold key_lt. intros H.
  assert (String.compare a a = Eq) as E
    by (by apply OrderedTypeEx.String_as_OT.cmp_eq).
  congruence.
Qed.

Lemma key_lt_gt a b : String.compare a b = Gt -> key_lt b a.
Proof.
  unfold key_lt. intros H. rewrite String.compare_antisym, H. reflexivity.
Qed.

Lemma insert_key_hd a k ks :
  key_lt a k -> HdRel key_lt a ks -> HdRel key_lt a (insert_key k ks).
Proof.
  intros Hk Hhd. destruct ks as [|k' ks]; simpl; [by constructor|].
  destruct (String.compare k k'); [done|by constructor|].
  constructor. by inversion Hhd.
Qed.

Lemma insert_key_sorted k ks :
  Sorted key_lt ks -> Sorted key_lt (insert_key k ks).
Proof.
  induction 1 as [|k' ks Hs IH Hhd]; simpl; [by repeat constructor|].
  destruct (String.compare k k') eqn:E.
  - by constructor.
  - constructor; [by constructor|]. by constructor.
  - constructor; [exact IH|]. apply insert_key_hd; [|done]. by apply key_lt_gt.
Qed.

Lemma group_keys_sorted df : Sorted key_lt (group_keys df).
Proof.
  unfold group_keys. induction df as [|r df IH]; simpl; [constructor|].
  by apply insert_key_sorted.
Qed.

Lemma sorted_key_lt_NoDup ks : Sorted key_lt ks -> NoDup ks.
Proof.
  intros Hs. apply Sorted_StronglySorted in Hs; [|apply key_lt_trans].
  induction Hs as [|k ks _ IH Hall]; constructor; [|exact IH].
  intros Hin. rewrite Forall_forall in Hall.
  by apply (key_lt_irrefl k), Hall.
Qed.

Lemma df_ranking_departamentos df :
  r_Departamento <$> df_ranking df = group_keys df.
Proof.
  unfold df_ranking. rewrite <- list_fmap_compose.
  induction (group_keys df) as [|k ks IH]; [done|].
  rewrite fmap_cons. by f_equal.
Qed.

(** One row per region: no region name occurs twice in the ranking, and a
    ranking that is returned is never empty. *)
Theorem ranking_one_row_per_region
    (AS : Argsort) (df_trib : list TribRow) (df_cont : list ContRow)
    (anio_target : Z) (rows : list RankingRow) :
  procesar_logica df_trib df_cont anio_target = Some rows ->
  NoDup (r_Departamento <$> rows) /\ rows <> [].
Proof.
  intros Hok. apply procesar_logica_inv in Hok as [Hne ->]. split.
  - rewrite sort_values_desc_perm, df_ranking_departamentos.
    apply sorted_key_lt_NoDup, group_keys_sorted.
  - intros Hnil.
    destruct (filter _ (merge df_trib df_cont)) as [|m l] eqn:E; [done|].
    assert (ranking_row (m_Departamento m) (m :: l) ∈ sort_values_desc (df_ranking (m :: l)))
      as Hin.
    { rewrite sort_values_desc_perm. apply elem_of_df_ranking.
      exists m. split; [by left|done]. }
    rewrite Hnil in Hin. by apply elem_of_nil in Hin.
Qed.

Lemma ranking_one_row_per_region_witness :
  NoDup (r_Departamento <$> [row_lima; row_arequipa; row_cusco; row_tacna]) /\
  [row_lima; row_arequipa; row_cusco; row_tacna] <> [].
Proof.
  apply (ranking_one_row_per_region argsort_stable trib_ties cont_ties 2024).
  by vm_compute.
Defined.

(** The join is exact on its key: every row of the ranking stands for a
    collection record and a taxpayer record of that region with the same
    month, both of the target year; a region, month or year reported by one
    relation only reaches no row. *)
Theorem ranking_row_has_records_in_both_relations
    (AS : Argsort) (df_trib : list TribRow) (df_cont : list ContRow)
    (anio_target : Z) (rows : list RankingRow) (r : RankingRow) :
  procesar_logica df_trib df_cont anio_target = Some rows ->
  r ∈ rows ->
  exists t c yt yc,
    t ∈ df_trib /\ c ∈ df_cont /\
    t_Departamento t = r_Departamento r /\
    c_Departamento c = Some (r_Departamento r) /\
    t_Mes t = Text (c_Mes c) /\
    t_Anio t = Some yt /\ c_Anio c = Some yc /\
    (yt == inject_Z anio_target)%Q /\ (yc == inject_Z anio_target)%Q.
Proof.
  intros Hok Hr. apply procesar_logica_inv in Hok as [_ ->].
  rewrite sort_values_desc_perm in Hr.
  apply elem_of_df_ranking in Hr as [m [Hm ->]].
  apply list_elem_of_filter in Hm as [Hy Hm].
  apply elem_of_merge in Hm as (t & c & Ht & Hc & Hk & ->).
  unfold anio_is in Hy. simpl in Hy.
  destruct (t_Anio t) as [yt|] eqn:Eyt; [|done]. apply Qeq_bool_eq in Hy.
  unfold key_eqb in Hk. rewrite !andb_true_iff in Hk. destruct Hk as [[Hd Ha] Hmes].
  apply bool_decide_eq_true in Hd.
  rewrite Eyt in Ha. apply anio_eqb_Some in Ha as [yc [Hyc Heq]].
  exists t, c, yt, yc. simpl.
  split; [done|]. split; [done|]. split; [done|]. split; [done|]. split.
  { unfold mes_eqb in Hmes. destruct (t_Mes t) as [|s|]; try done.
    by apply String.eqb_eq in Hmes as ->. }
  split; [done|]. split; [done|]. split; [done|]. by rewrite <- Heq.
Qed.

Lemma ranking_row_has_records_witness :
  exists t c yt yc,
    t ∈ trib_ties /\ c ∈ cont_ties /\
    t_Departamento t = r_Departamento row_cusco /\
    c_Departamento c = Some (r_Departamento row_cusco) /\
    t_Mes t = Text (c_Mes c) /\
    t_Anio t = Some yt /\ c_Anio c = Some yc /\
    (yt == inject_Z 2024)%Q /\ (yc == inject_Z 2024)%Q.
Proof.
  apply (ranking_row_has_records_in_both_relations argsort_stable trib_ties cont_ties
           2024 [row_lima; row_arequipa; row_cusco; row_tacna] row_cusco).
  - by vm_compute.
  - apply list_elem_of_further, list_elem_of_further, list_elem_of_here.
Defined.

(** [procesar_logica] returns [None] exactly when no collection record and
    taxpayer record of the target year share a key. *)
Theorem procesar_logica_none_iff_no_joined_row
    (AS : Argsort) (df_trib : list TribRow) (df_cont : list ContRow)
    (anio_target : Z) :
  procesar_logica df_trib df_cont anio_target = None <->
  ~ exists t c yt,
      t ∈ df_trib /\ c ∈ df_cont /\ key_eqb t c = true /\
      t_Anio t = Some yt /\ (yt == inject_Z anio_target)%Q.
Proof.
  unfold procesar_logica. cbv zeta.
  destruct (filter _ (merge df_trib df_cont)) as [|m l] eqn:E.
  - split; [|done]. intros _ (t & c & yt & Ht & Hc & Hk & Hyt & Hy).
    assert (merged t c ∈ filter (fun r => anio_is anio_target r = true)
                                (merge df_trib df_cont)) as Hin.
    { apply list_elem_of_filter. split.
      - unfold anio_is. simpl. rewrite Hyt. by apply Qeq_bool_iff.
      - apply elem_of_merge. by exists t, c. }
    rewrite E in Hin. by apply elem_of_nil in Hin.
  - split; [done|]. intros Hno. destruct Hno.
    assert (m ∈ filter (fun r => anio_is anio_target r = true) (merge df_trib df_cont))
      as Hm by (rewrite E; by left).
    apply list_elem_of_filter in Hm as [Hy Hm].
    apply elem_of_merge in Hm as (t & c & Ht & Hc & Hk & ->).
    unfold anio_is in Hy. simpl in Hy.
    destruct (t_Anio t) as [yt|] eqn:Eyt; [|done]. apply Qeq_bool_eq in Hy.
    by exists t, c, yt.
Qed.

(** ** Errors and fallbacks of [limpiar_tributos] *)


Lemma positions_nil_inv lbl cols : positions lbl cols = [] -> lbl ∉ cols.
Proof.
  intros Hp Hin. apply list_elem_of_lookup in Hin as [j Hj].
  apply elem_of_positions in Hj. rewrite Hp in Hj. by apply elem_of_nil in Hj.
Qed.


Section TributosErrors.
Variable num_str : Q -> string.
Variable parse_num : string -> option Q.

(** The fallback index is not checked against the grid: a grid of fewer
    than two rows none of which passes the header test has no row 1, and
    reading it is an IndexError. *)
Theorem limpiar_tributos_header_out_of_range (df_raw : DataFrame) :
  length df_raw < 2 ->
  (forall row, row ∈ df_raw -> is_header_row num_str row = false) ->
  limpiar_tributos num_str parse_num df_raw = Raise IndexError.
Proof.
  intros Hlen Hno.
  assert (header_idx num_str df_raw = 1%nat) as Hidx
    by (unfold header_idx; by rewrite find_header_none).
  assert (df_raw !! header_idx num_str df_raw = None) as Hn
    by (rewrite Hidx; apply lookup_ge_None; lia).
  unfold limpiar_tributos. by rewrite Hn.
Qed.





End TributosErrors.

Lemma limpiar_tributos_header_out_of_range_witness :
  limpiar_tributos Decimal.num_str Decimal.parse_num [[Text "Recaudacion 2024"]]
  = Raise IndexError.
Proof.
  apply limpiar_tributos_header_out_of_range.
  - simpl. lia.
  - intros row Hrow. apply list_elem_of_singleton in Hrow as ->. by vm_compute.
Defined.





(** ** Labels, splits and errors of [limpiar_contribuyentes] *)

(** Number of occurrences of the character [c] in [s]. *)
Fixpoint count_char (c : ascii) (s : string) : nat :=
  match s with
  | EmptyString => 0
  | String d s' => (if Ascii.eqb d c then 1 else 0) + count_char c s'
  end.

Lemma count_char_app c s1 s2 :
  count_char c (s1 +:+ s2) = (count_char c s1 + count_char c s2)%nat.
Proof. induction s1 as [|d s1 IH]; simpl; [done|]. rewrite IH. lia. Qed.

Lemma count_char_0 c s : count_char c s = 0%nat <-> has_char c s = false.
Proof.
  induction s as [|d s IH]; simpl; [done|].
  destruct (Ascii.eqb d c); simpl; [split; [lia|done]|exact IH].
Qed.

Lemma split_aux_length sep cur s :
  length (PyStr.split_aux sep cur s) = S (count_char sep s).
Proof.
  revert cur. induction s as [|d s IH]; intros cur; simpl; [done|].
  destruct (Ascii.eqb d sep); simpl; by rewrite IH.
Qed.

Lemma split_aux_no_sep sep cur s :
  has_char sep s = false ->
  PyStr.split_aux sep cur s = [string_of_list_ascii (rev cur ++ list_ascii_of_string s)].
Proof.
  revert cur. induction s as [|d s IH]; intros cur Hs; simpl in *.
  - by rewrite app_nil_r.
  - apply orb_false_iff in Hs as [Hd Hs]. rewrite Hd, IH by done.
    simpl. by rewrite <- app_assoc.
Qed.

Lemma split_aux_join sep cur a b :
  has_char sep a = false ->
  PyStr.split_aux sep cur (a +:+ String sep b)
  = string_of_list_ascii (rev cur ++ list_ascii_of_string a)
    :: PyStr.split_aux sep [] b.
Proof.
  revert cur. induction a as [|d a IH]; intros cur Ha; simpl in *.
  - rewrite Ascii.eqb_refl. by rewrite app_nil_r.
  - apply orb_false_iff in Ha as [Hd Ha]. rewrite Hd, IH by done.
    simpl. by rewrite <- app_assoc.
Qed.

(** The label of a column and its split are a round trip when neither part
    holds the separator, and only then does the split give two parts. *)
Lemma split_label y m :
  has_char "_" y = false -> has_char "_" m = false ->
  PyStr.split "_" (y +:+ "_" +:+ m) = [y; m].
Proof.
  intros Hy Hm. unfold PyStr.split.
  change (y +:+ "_" +:+ m) with (y +:+ String "_" m).
  rewrite split_aux_join, split_aux_no_sep by done. simpl.
  by rewrite !string_of_list_ascii_of_string.
Qed.

Lemma split_label_length y m :
  length (PyStr.split "_" (y +:+ "_" +:+ m))
  = (2 + count_char "_" y + count_char "_" m)%nat.
Proof.
  unfold PyStr.split. rewrite split_aux_length, !count_char_app. simpl. lia.
Qed.

Lemma split_label_inv y m a b :
  PyStr.split "_" (y +:+ "_" +:+ m) = [a; b] -> a = y /\ b = m.
Proof.
  intros Hs. pose proof (split_label_length y m) as Hl. rewrite Hs in Hl. simpl in Hl.
  assert (has_char "_" y = false) as Hy by (apply count_char_0; lia).
  assert (has_char "_" m = false) as Hm by (apply count_char_0; lia).
  rewrite split_label in Hs by done. by injection Hs as <- <-.
Qed.

Lemma split_and_clean_fail parse_num l x :
  x ∈ l -> length (PyStr.split "_" (cm_Year_Mes x)) <> 2%nat ->
  split_and_clean parse_num l = Raise ValueError.
Proof.
  induction l as [|x' l IH]; intros Hx Hlen; [by apply elem_of_nil in Hx|].
  simpl. destruct (PyStr.split "_" (cm_Year_Mes x')) as [|a [|b [|? ?]]] eqn:E; try done.
  apply elem_of_cons in Hx as [->|Hx]; [by rewrite E in Hlen|].
  by rewrite (IH Hx Hlen).
Qed.

Lemma prefix_DROP_pretty (i : nat) :
  PyStr.startswith "DROP" ("DROP_" +:+ pretty i) = true.
Proof. reflexivity. Qed.

Lemma prefix_cons x p y a :
  String.prefix (String x p) (String y a)
  = if Ascii.ascii_dec x y then String.prefix p a else false.
Proof. reflexivity. Qed.

Lemma prefix_app_sep p a c b :
  String.prefix p a = false -> has_char c p = false ->
  String.prefix p (a +:+ String c b) = false.
Proof.
  revert a. induction p as [|x p IH]; intros a Ha Hc; [by destruct a|].
  cbn [has_char] in Hc. apply orb_false_iff in Hc as [Hx Hc].
  destruct a as [|y a].
  - change ("" +:+ String c b) with (String c b). rewrite prefix_cons.
    destruct (Ascii.ascii_dec x c) as [->|]; [|done].
    by rewrite Ascii.eqb_refl in Hx.
  - change (String y a +:+ String c b) with (String y (a +:+ String c b)).
    rewrite prefix_cons in *.
    destruct (Ascii.ascii_dec x y); [by apply IH|done].
Qed.

Lemma prefix_DROP_app a b :
  PyStr.startswith "DROP" a = false ->
  PyStr.startswith "DROP" (a +:+ "_" +:+ b) = false.
Proof.
  intros Ha. unfold PyStr.startswith in *.
  change (a +:+ "_" +:+ b) with (a +:+ String "_" b).
  by apply prefix_app_sep.
Qed.

Section ContribuyentesFacts.
Variable num_str : Q -> string.
Variable parse_num : string -> option Q.

(** What a label that is kept beside column 0 looks like. *)
Lemma kept_label_shape df_raw r0 r1 j lbl :
  cont_cols num_str df_raw r0 r1 !! j = Some lbl ->
  j <> 0%nat -> PyStr.startswith "DROP" lbl = false ->
  exists cy,
    ffill_year num_str (row_values (ncols df_raw) r0) j = Some cy /\
    truthy cy = true /\ notna (iloc_cell r1 j) = true /\
    lbl = str_cell num_str cy +:+ "_" +:+ str_cell num_str (iloc_cell r1 j).
Proof.
  intros Hl Hj Hd. unfold cont_cols in Hl.
  assert (j < ncols df_raw) as Hlt.
  { apply lookup_lt_Some in Hl. unfold new_cols in Hl.
    rewrite new_cols_loop_length, length_zip, !row_values_length in Hl. lia. }
  rewrite new_cols_lookup in Hl by done. injection Hl as <-.
  unfold col_label in *. destruct j as [|j]; [done|]. simpl Nat.eqb in *. cbv iota in *.
  pose proof (prefix_DROP_pretty (S j)) as Hp.
  destruct (ffill_year _ _ _) as [cy|]; [|congruence].
  destruct (truthy cy) eqn:Et; [|simpl in Hd; congruence].
  destruct (notna (iloc_cell r1 (S j))) eqn:En; [|simpl in Hd; congruence].
  by exists cy.
Qed.

(** A grid without data rows gives no relation: with fewer than two rows
    the header rows cannot be read (IndexError); with the two header rows
    alone the long frame is empty and its split into year and month fails
    (ValueError). *)
Theorem limpiar_contribuyentes_without_data_rows (df_raw : DataFrame) :
  length df_raw <= 2 -> 0 < ncols df_raw ->
  limpiar_contribuyentes num_str parse_num df_raw
  = Raise (if (length df_raw <? 2)%nat then IndexError else ValueError).
Proof.
  intros Hlen Hn. destruct df_raw as [|r0 [|r1 [|r2 df]]]; simpl in Hlen; [done|done| |lia].
  rewrite (limpiar_contribuyentes_unfold _ _ _ r0 r1) by done.
  unfold cont_long. simpl.
  by induction (value_columns _) as [|j js IH].
Qed.

(** A year or month label that holds "_" breaks the split of the column
    label into two parts: the reshaper raises. *)
Theorem limpiar_contribuyentes_underscore_in_label
    (df_raw : DataFrame) (r0 r1 row : list cell) (j : nat) (cy : cell) :
  df_raw !! 0%nat = Some r0 -> df_raw !! 1%nat = Some r1 ->
  row ∈ drop 2 df_raw ->
  j < ncols df_raw -> j <> 0%nat ->
  ffill_year num_str (row_values (ncols df_raw) r0) j = Some cy ->
  truthy cy = true -> notna (iloc_cell r1 j) = true ->
  PyStr.startswith "DROP" (str_cell num_str cy) = false ->
  has_char "_" (str_cell num_str cy) = true \/
  has_char "_" (str_cell num_str (iloc_cell r1 j)) = true ->
  limpiar_contribuyentes num_str parse_num df_raw = Raise ValueError.
Proof.
  intros H0 H1 Hrow Hlt Hj Hcy Ht Hm Hd Hus.
  set (lbl := str_cell num_str cy +:+ "_" +:+ str_cell num_str (iloc_cell r1 j)).
  assert (cont_cols num_str df_raw r0 r1 !! j = Some lbl) as Hl.
  { unfold cont_cols. rewrite new_cols_lookup by done. rewrite Hcy.
    unfold col_label. destruct j; [done|]. simpl Nat.eqb. cbv iota. by rewrite Ht, Hm. }
  assert (PyStr.startswith "DROP" lbl = false) as Hdl
    by (by apply prefix_DROP_app).
  assert ({| cm_Departamento := iloc_cell row 0; cm_Year_Mes := lbl;
             cm_Contribuyentes := iloc_cell row j |}
          ∈ cont_long (cont_cols num_str df_raw r0 r1) (drop 2 df_raw)) as Hin.
  { apply elem_of_cont_long. exists row, j, lbl. repeat split; try done.
    intros Heq. by apply (cont_cols_Departamento _ _ _ _ _ _ Hl) in Heq. }
  rewrite (limpiar_contribuyentes_unfold _ _ _ r0 r1) by (done || lia).
  destruct (cont_long _ _) as [|x l] eqn:E; [by apply elem_of_nil in Hin|].
  rewrite <- E in *. apply (split_and_clean_fail _ _ _ Hin). simpl.
  unfold lbl. rewrite split_label_length.
  destruct Hus as [Hus|Hus];
    (destruct (count_char "_" _) eqn:Ec at 1 || idtac).
  all: assert (forall s, has_char "_" s = true -> count_char "_" s <> 0%nat) as Hpos
    by (intros s Hs Hz; apply count_char_0 in Hz; congruence).
  all: try (apply Hpos in Hus; lia).
Qed.

(** Where the records of the taxpayer relation come from, and what they
    carry: a data row (index 2 or more) and a column other than column 0
    whose forward-filled year and month make its label; the year of the
    record is that year read as a number, its month the month cell after
    normalisation, its region the cell of column 0, its count the cell read
    as a number, or 1. *)
Theorem limpiar_contribuyentes_record_origin
    (df_raw : DataFrame) (r0 r1 : list cell) (rows : list ContRow) (r : ContRow) :
  df_raw !! 0%nat = Some r0 -> df_raw !! 1%nat = Some r1 ->
  limpiar_contribuyentes num_str parse_num df_raw = Ok rows -> r ∈ rows ->
  exists i row j cy,
    2 <= i /\ df_raw !! i = Some row /\ j <> 0%nat /\
    ffill_year num_str (row_values (ncols df_raw) r0) j = Some cy /\
    c_Year_Mes r = str_cell num_str cy +:+ "_" +:+ str_cell num_str (iloc_cell r1 j) /\
    c_Anio r = to_numeric parse_num (Text (str_cell num_str cy)) /\
    c_Mes r = normalizar_mes (str_cell num_str (iloc_cell r1 j)) /\
    c_Departamento r = departamento_cont (iloc_cell row 0) /\
    c_Contribuyentes r = fillna 1 (to_numeric parse_num (iloc_cell row j)).
Proof.
  intros H0 H1 Hok Hr.
  apply limpiar_contribuyentes_inv in Hok as (r0' & r1' & H0' & H1' & Hn & _ & Hok).
  rewrite H0 in H0'. injection H0' as <-. rewrite H1 in H1'. injection H1' as <-.
  destruct (split_and_clean_elem _ _ _ _ Hok Hr) as (x & anio & mes & Hx & Hs & ->).
  apply elem_of_cont_long in Hx as (row & j & lbl & Hrow & Hl & Hd & Hne & ->).
  assert (j <> 0%nat) as Hj.
  { intros ->. by apply Hne, (cont_cols_Departamento _ _ _ _ _ _ Hl). }
  destruct (kept_label_shape _ _ _ _ _ Hl Hj Hd) as (cy & Hcy & _ & _ & ->).
  simpl in Hs. apply split_label_inv in Hs as [-> ->].
  apply list_elem_of_lookup in Hrow as [i Hi]. rewrite lookup_drop in Hi.
  exists (2 + i)%nat, row, j, cy. split; [lia|]. done.
Qed.

(** What the taxpayer relation never holds: the region "LIMA METROPOLITANA",
    a month that is still an abbreviation of the mapping, a label of a
    dropped column. *)
Theorem limpiar_contribuyentes_never_holds
    (df_raw : DataFrame) (rows : list ContRow) (r : ContRow) :
  limpiar_contribuyentes num_str parse_num df_raw = Ok rows -> r ∈ rows ->
  c_Departamento r <> Some "LIMA METROPOLITANA" /\
  mapa_meses !! c_Mes r = None /\
  PyStr.startswith "DROP" (c_Year_Mes r) = false.
Proof.
  intros Hok Hr.
  apply limpiar_contribuyentes_inv in Hok as (r0 & r1 & _ & _ & _ & _ & Hok).
  destruct (split_and_clean_elem _ _ _ _ Hok Hr) as (x & anio & mes & Hx & _ & ->).
  apply elem_of_cont_long in Hx as (row & j & lbl & _ & _ & Hd & _ & ->).
  simpl. split; [|split; [|done]].
  - destruct (iloc_cell row 0) as [|s|]; try done. simpl.
    unfold normalizar_departamento_cont.
    destruct (replace_alias_cases (normalizar_departamento s)) as [[_ ->]|[Hne ->]];
      [done|congruence].
  - unfold normalizar_mes. destruct (mapa_meses !! mes) as [v|] eqn:E; simpl; [|done].
    by apply mapa_meses_values in E as [_ ?].
Qed.

End ContribuyentesFacts.

Lemma limpiar_contribuyentes_without_data_rows_witness :
  limpiar_contribuyentes Decimal.num_str Decimal.parse_num
    [[NaN; Num 2024]; [Text "Departamento"; Text "Ene."]]
  = Raise ValueError.
Proof.
  apply (limpiar_contribuyentes_without_data_rows Decimal.num_str Decimal.parse_num
           [[NaN; Num 2024]; [Text "Departamento"; Text "Ene."]]).
  - simpl. lia.
  - vm_compute. lia.
Defined.

Lemma limpiar_contribuyentes_underscore_witness :
  limpiar_contribuyentes Decimal.num_str Decimal.parse_num
    [ [NaN; Text "FY_24"]; [Text "Departamento"; Text "Ene."]; [Text "Lima"; Num 50] ]
  = Raise ValueError.
Proof.
  apply (limpiar_contribuyentes_underscore_in_label Decimal.num_str Decimal.parse_num
           _ [NaN; Text "FY_24"] [Text "Departamento"; Text "Ene."]
           [Text "Lima"; Num 50] 1 (Text "FY_24")).
  - reflexivity.
  - reflexivity.
  - apply list_elem_of_here.
  - vm_compute. lia.
  - lia.
  - by vm_compute.
  - reflexivity.
  - reflexivity.
  - reflexivity.
  - left. reflexivity.
Defined.

Lemma limpiar_contribuyentes_record_origin_witness :
  exists i row j cy,
    2 <= i /\ grid_cont_ND !! i = Some row /\ j <> 0%nat /\
    ffill_year Decimal.num_str
      (row_values (ncols grid_cont_ND) [NaN; Num 2024; NaN]) j = Some cy /\
    "2024_Feb."
    = str_cell Decimal.num_str cy +:+ "_" +:+
      str_cell Decimal.num_str (iloc_cell [Text "Departamento"; Text "Ene."; Text "Feb."] j) /\
    Some 2024%Q = to_numeric Decimal.parse_num (Text (str_cell Decimal.num_str cy)) /\
    "Febrero"
    = normalizar_mes
        (str_cell Decimal.num_str
           (iloc_cell [Text "Departamento"; Text "Ene."; Text "Feb."] j)) /\
    Some "AMAZONAS" = departamento_cont (iloc_cell row 0) /\
    7%Q = fillna 1 (to_numeric Decimal.parse_num (iloc_cell row j)).
Proof.
  apply (limpiar_contribuyentes_record_origin Decimal.num_str Decimal.parse_num
           grid_cont_ND [NaN; Num 2024; NaN]
           [Text "Departamento"; Text "Ene."; Text "Feb."]
           [ {| c_Departamento := Some "AMAZONAS"; c_Year_Mes := "2024_Ene.";
                c_Contribuyentes := 1; c_Anio := Some 2024%Q; c_Mes := "Enero" |};
             {| c_Departamento := Some "AMAZONAS"; c_Year_Mes := "2024_Feb.";
                c_Contribuyentes := 7; c_Anio := Some 2024%Q; c_Mes := "Febrero" |} ]
           {| c_Departamento := Some "AMAZONAS"; c_Year_Mes := "2024_Feb.";
              c_Contribuyentes := 7; c_Anio := Some 2024%Q; c_Mes := "Febrero" |}).
  - reflexivity.
  - reflexivity.
  - by vm_compute.
  - apply list_elem_of_further, list_elem_of_here.
Defined.

Lemma limpiar_contribuyentes_never_holds_witness :
  Some "LIMA" <> Some "LIMA METROPOLITANA" /\
  mapa_meses !! "Enero" = None /\
  PyStr.startswith "DROP" "2024_Ene." = false.
Proof.
  apply (limpiar_contribuyentes_never_holds Decimal.num_str Decimal.parse_num
           grid_cont_scenario1
           [ {| c_Departamento := Some "LIMA"; c_Year_Mes := "2024_Ene.";
                c_Contribuyentes := 50; c_Anio := Some 2024%Q; c_Mes := "Enero" |} ]
           {| c_Departamento := Some "LIMA"; c_Year_Mes := "2024_Ene.";
              c_Contribuyentes := 50; c_Anio := Some 2024%Q; c_Mes := "Enero" |}).
  - by vm_compute.
  - apply list_elem_of_here.
Defined.

(** ** The answers of the dashboard *)

Lemma joined_anio_disponible df_trib df_cont anio_target m :
  m ∈ filter (fun r => anio_is anio_target r = true) (merge df_trib df_cont) ->
  has_anio (inject_Z anio_target) (anios_disponibles df_trib df_cont).
Proof.
  intros Hm. apply list_elem_of_filter in Hm as [Hy Hm].
  apply elem_of_merge in Hm as (t & c & Ht & Hc & Hk & ->).
  unfold anio_is in Hy. simpl in Hy.
  destruct (t_Anio t) as [yt|] eqn:Eyt; [|done]. apply Qeq_bool_eq in Hy.
  unfold key_eqb in Hk. rewrite !andb_true_iff in Hk. destruct Hk as [[_ Hk] _].
  rewrite Eyt in Hk. apply anio_eqb_Some in Hk as [yc [Hyc Heq]].
  apply has_anio_disponibles. split.
  - by exists t, yt.
  - exists c, yc. split; [done|]. split; [done|]. by rewrite <- Heq.
Qed.

Lemma procesar_logica_Some_anio `{Argsort} df_trib df_cont anio_target rows :
  procesar_logica df_trib df_cont anio_target = Some rows ->
  has_anio (inject_Z anio_target) (anios_disponibles df_trib df_cont).
Proof.
  intros Hok. apply procesar_logica_inv in Hok as [Hne _].
  destruct (filter _ (merge df_trib df_cont)) as [|m l] eqn:E; [done|].
  apply (joined_anio_disponible _ _ _ m). rewrite E. by left.
Qed.

#[global] Instance Qgt_flip_trans : Transitive (fun p q : Q => (q < p)%Q).
Proof. intros p q r Hqp Hrq. by eapply Qlt_trans. Qed.

Lemma sorted_desc_head_max u l y :
  Sorted (fun p q => q < p)%Q (u :: l) -> y ∈ l -> (y < u)%Q.
Proof.
  intros Hs Hy. apply Sorted_StronglySorted in Hs; [|apply Qgt_flip_trans].
  apply StronglySorted_inv in Hs as [_ Hall].
  rewrite Forall_forall in Hall. by apply Hall.
Qed.

Section Dashboard.
Context `{Argsort}.
Variable num_str : Q -> string.
Variable parse_num : string -> option Q.

Lemma dashboard_pipeline_ok df_trib_raw df_cont_raw anio df_trib df_cont :
  limpiar_tributos num_str parse_num df_trib_raw = Ok df_trib ->
  limpiar_contribuyentes num_str parse_num df_cont_raw = Ok df_cont ->
  dashboard_pipeline num_str parse_num df_trib_raw df_cont_raw anio
  = match procesar_logica df_trib df_cont anio with
    | None =>
        match anios_disponibles df_trib df_cont with
        | [] => ErrorProcesando IndexError
        | ultimo :: _ => SinDatos anio ultimo
        end
    | Some df_resultado => Resultado df_resultado (anios_disponibles df_trib df_cont)
    end.
Proof.
  intros Ht Hc. unfold dashboard_pipeline. rewrite Ht, Hc. simpl.
  destruct (procesar_logica df_trib df_cont anio); [done|].
  by destruct (anios_disponibles df_trib df_cont).
Qed.

Lemma dashboard_pipeline_inv df_trib_raw df_cont_raw anio r :
  dashboard_pipeline num_str parse_num df_trib_raw df_cont_raw anio = r ->
  (forall e, r <> ErrorProcesando e) ->
  exists df_trib df_cont,
    limpiar_tributos num_str parse_num df_trib_raw = Ok df_trib /\
    limpiar_contribuyentes num_str parse_num df_cont_raw = Ok df_cont.
Proof.
  intros Hr Hne. unfold dashboard_pipeline in Hr.
  destruct (limpiar_tributos num_str parse_num df_trib_raw) as [df_trib|e] eqn:Et;
    [|by destruct (Hne e)].
  destruct (limpiar_contribuyentes num_str parse_num df_cont_raw) as [df_cont|e] eqn:Ec;
    [|by destruct (Hne e)].
  by exists df_trib, df_cont.
Qed.

(** When the two sources share no year, any request ends in the [except]
    branch: [procesar_logica] returns [None] and [anios_disponibles[0]] is
    an IndexError, so the "no data" answer is never given. *)
Theorem dashboard_no_common_year
    (df_trib_raw df_cont_raw : DataFrame) (anio : Z)
    (df_trib : list TribRow) (df_cont : list ContRow) :
  limpiar_tributos num_str parse_num df_trib_raw = Ok df_trib ->
  limpiar_contribuyentes num_str parse_num df_cont_raw = Ok df_cont ->
  (forall t c yt yc,
     t ∈ df_trib -> c ∈ df_cont ->
     t_Anio t = Some yt -> c_Anio c = Some yc -> ~ (yt == yc)%Q) ->
  dashboard_pipeline num_str parse_num df_trib_raw df_cont_raw anio
  = ErrorProcesando IndexError.
Proof.
  intros Ht Hc Hno.
  assert (anios_disponibles df_trib df_cont = []) as Hnil.
  { destruct (anios_disponibles df_trib df_cont) as [|y l] eqn:E; [done|].
    assert (has_anio y (anios_disponibles df_trib df_cont)) as Hy.
    { rewrite E. exists y. split; [by left|reflexivity]. }
    apply has_anio_disponibles in Hy as [(t & yt & Hin & Hyt & Hy) (c & yc & Hc' & Hyc & Hy')].
    destruct (Hno t c yt yc); try done. by rewrite Hy, Hy'. }
  rewrite (dashboard_pipeline_ok _ _ _ df_trib df_cont) by done.
  destruct (procesar_logica df_trib df_cont anio) as [rows|] eqn:E.
  - apply procesar_logica_Some_anio in E. rewrite Hnil in E.
    by apply has_anio_nil in E.
  - by rewrite Hnil.
Qed.

(** The "no data" answer names the requested year and the greatest year
    present in both relations, and it is given only when the requested year
    has no joined row. *)
Theorem dashboard_sin_datos_latest_year
    (df_trib_raw df_cont_raw : DataFrame) (anio a : Z) (ultimo : Q) :
  dashboard_pipeline num_str parse_num df_trib_raw df_cont_raw anio
  = SinDatos a ultimo ->
  exists df_trib df_cont,
    limpiar_tributos num_str parse_num df_trib_raw = Ok df_trib /\
    limpiar_contribuyentes num_str parse_num df_cont_raw = Ok df_cont /\
    a = anio /\
    procesar_logica df_trib df_cont anio = None /\
    (exists t, t ∈ df_trib /\ exists yt, t_Anio t = Some yt /\ (yt == ultimo)%Q) /\
    (exists c, c ∈ df_cont /\ exists yc, c_Anio c = Some yc /\ (yc == ultimo)%Q) /\
    (forall t c yt yc,
       t ∈ df_trib -> c ∈ df_cont ->
       t_Anio t = Some yt -> c_Anio c = Some yc -> (yt == yc)%Q ->
       (yt <= ultimo)%Q).
Proof.
  intros Hr.
  destruct (dashboard_pipeline_inv _ _ _ _ Hr) as (df_trib & df_cont & Ht & Hc);
    [done|].
  rewrite (dashboard_pipeline_ok _ _ _ df_trib df_cont) in Hr by done.
  exists df_trib, df_cont. split; [done|]. split; [done|].
  destruct (procesar_logica df_trib df_cont anio) as [rows|] eqn:E; [done|].
  destruct (anios_disponibles df_trib df_cont) as [|u l] eqn:Ea; [done|].
  injection Hr as <- <-. split; [done|]. split; [done|].
  assert (has_anio u (anios_disponibles df_trib df_cont)) as Hu.
  { rewrite Ea. exists u. split; [by left|reflexivity]. }
  apply has_anio_disponibles in Hu as [(t & yt & Hin & Hyt & Hy) (c & yc & Hc' & Hyc & Hy')].
  split; [by exists t; split; [|exists yt]|].
  split; [by exists c; split; [|exists yc]|].
  intros t' c' yt' yc' Ht' Hc'' Hyt' Hyc' Heq.
  assert (has_anio yt' (anios_disponibles df_trib df_cont)) as Hin'.
  { apply has_anio_disponibles. split.
    - exists t', yt'. split; [done|]. split; [done|reflexivity].
    - exists c', yc'. split; [done|]. split; [done|]. by rewrite Heq. }
  rewrite Ea in Hin'. destruct Hin' as [y' [Hy'in Hy'eq]]. rewrite <- Hy'eq.
  apply elem_of_cons in Hy'in as [->|Hy'in]; [apply Qle_refl|].
  apply Qlt_le_weak, (sorted_desc_head_max u l); [|done].
  rewrite <- Ea. apply sorted_desc_sorted.
Qed.

(** The rendering starts only with a ranking that is not empty and a list
    of years that holds the requested year. *)
Theorem dashboard_resultado_year_offered
    (df_trib_raw df_cont_raw : DataFrame) (anio : Z)
    (df_resultado : list RankingRow) (lista_anios : list Q) :
  dashboard_pipeline num_str parse_num df_trib_raw df_cont_raw anio
  = Resultado df_resultado lista_anios ->
  df_resultado <> [] /\
  has_anio (inject_Z anio) lista_anios /\
  Sorted (fun p q => q < p)%Q lista_anios /\
  exists df_trib df_cont,
    limpiar_tributos num_str parse_num df_trib_raw = Ok df_trib /\
    limpiar_contribuyentes num_str parse_num df_cont_raw = Ok df_cont /\
    procesar_logica df_trib df_cont anio = Some df_resultado /\
    lista_anios = anios_disponibles df_trib df_cont.
Proof.
  intros Hr.
  destruct (dashboard_pipeline_inv _ _ _ _ Hr) as (df_trib & df_cont & Ht & Hc);
    [done|].
  rewrite (dashboard_pipeline_ok _ _ _ df_trib df_cont) in Hr by done.
  destruct (procesar_logica df_trib df_cont anio) as [rows|] eqn:E;
    [|by destruct (anios_disponibles df_trib df_cont)].
  injection Hr as <- <-.
  split.
  { apply procesar_logica_inv in E as [Hne ->]. intros Hnil.
    destruct (filter _ (merge df_trib df_cont)) as [|m l] eqn:Ef; [done|].
    assert (ranking_row (m_Departamento m) (m :: l) ∈ sort_values_desc (df_ranking (m :: l)))
      as Hin.
    { rewrite sort_values_desc_perm. apply elem_of_df_ranking.
      exists m. split; [by left|done]. }
    rewrite Hnil in Hin. by apply elem_of_nil in Hin. }
  split; [by eapply procesar_logica_Some_anio|].
  split; [apply sorted_desc_sorted|].
  by exists df_trib, df_cont.
Qed.

End Dashboard.

Lemma dashboard_no_common_year_witness :
  @dashboard_pipeline argsort_stable Decimal.num_str Decimal.parse_num
    grid_trib_2023 grid_cont_scenario1 2024
  = ErrorProcesando IndexError.
Proof.
  apply (dashboard_no_common_year Decimal.num_str Decimal.parse_num
           grid_trib_2023 grid_cont_scenario1 2024
           [ {| t_Mes := Text "Enero"; t_Anio := Some 2023%Q; t_Departamento := "LIMA";
                t_Recaudacion := 100 |};
             {| t_Mes := Text "Enero"; t_Anio := Some 2023%Q;
                t_Departamento := "AMAZONAS"; t_Recaudacion := 7 |} ]
           [ {| c_Departamento := Some "LIMA"; c_Year_Mes := "2024_Ene.";
                c_Contribuyentes := 50; c_Anio := Some 2024%Q; c_Mes := "Enero" |} ]).
  - by vm_compute.
  - by vm_compute.
  - intros t c yt yc Ht Hc Hyt Hyc Heq.
    apply list_elem_of_singleton in Hc as ->. simpl in Hyc. injection Hyc as <-.
    apply elem_of_cons in Ht as [->|Ht];
      [|apply list_elem_of_singleton in Ht as ->];
      simpl in Hyt; injection Hyt as <-; by vm_compute in Heq.
Defined.

Lemma dashboard_sin_datos_witness :
  exists df_trib df_cont,
    limpiar_tributos Decimal.num_str Decimal.parse_num grid_trib_two_years = Ok df_trib /\
    limpiar_contribuyentes Decimal.num_str Decimal.parse_num grid_cont_two_years
    = Ok df_cont /\
    2019%Z = 2019%Z /\
    @procesar_logica argsort_stable df_trib df_cont 2019 = None /\
    (exists t, t ∈ df_trib /\ exists yt, t_Anio t = Some yt /\ (yt == 2024)%Q) /\
    (exists c, c ∈ df_cont /\ exists yc, c_Anio c = Some yc /\ (yc == 2024)%Q) /\
    (forall t c yt yc,
       t ∈ df_trib -> c ∈ df_cont ->
       t_Anio t = Some yt -> c_Anio c = Some yc -> (yt == yc)%Q ->
       (yt <= 2024)%Q).
Proof.
  apply (@dashboard_sin_datos_latest_year argsort_stable Decimal.num_str
           Decimal.parse_num grid_trib_two_years grid_cont_two_years 2019 2019 2024%Q).
  by vm_compute.
Defined.

Lemma dashboard_resultado_witness :
  [ {| r_Departamento := "LIMA"; r_Recaudacion := 100; r_Contribuyentes := 50;
       r_Soles_por_Contribuyente := Finite 2000000 |} ] <> [] /\
  has_anio (inject_Z 2024) [2024%Q; 2023%Q] /\
  Sorted (fun p q => q < p)%Q [2024%Q; 2023%Q] /\
  exists df_trib df_cont,
    limpiar_tributos Decimal.num_str Decimal.parse_num grid_trib_two_years = Ok df_trib /\
    limpiar_contribuyentes Decimal.num_str Decimal.parse_num grid_cont_two_years
    = Ok df_cont /\
    @procesar_logica argsort_stable df_trib df_cont 2024
    = Some [ {| r_Departamento := "LIMA"; r_Recaudacion := 100; r_Contribuyentes := 50;
                r_Soles_por_Contribuyente := Finite 2000000 |} ] /\
    [2024%Q; 2023%Q] = anios_disponibles df_trib df_cont.
Proof.
  apply (@dashboard_resultado_year_offered argsort_stable Decimal.num_str
           Decimal.parse_num grid_trib_two_years grid_cont_two_years 2024).
  by vm_compute.
Defined.

(** ** The forward fill of the year row *)

Section ForwardFill.
Variable num_str : Q -> string.

Lemma ffill_year_nearest (years : list cell) (k i : nat) (y : cell) :
  k <= i -> years !! k = Some y -> is_year_label num_str y = true ->
  (forall j y', k < j <= i -> years !! j = Some y' ->
                is_year_label num_str y' = false) ->
  ffill_year num_str years i = Some y.
Proof.
  intros Hki Hk Hy Hafter. unfold ffill_year.
  rewrite <- (take_drop (S k) (take (S i) years)).
  rewrite take_take, Nat.min_l by lia.
  rewrite (take_S_r _ _ _ Hk), !filter_app.
  rewrite (filter_cons_True _ y) by done. rewrite filter_nil.
  rewrite (filter_none _ (drop _ _)).
  - rewrite app_nil_r. apply last_snoc.
  - intros y' Hy'. apply list_elem_of_lookup in Hy' as [j Hj].
    rewrite lookup_drop in Hj. apply lookup_take_Some in Hj as [Hj Hlt].
    rewrite (Hafter (S k + j)%nat y'); [done|lia|done].
Qed.

Lemma ffill_year_none (years : list cell) (i : nat) :
  (forall j y', j <= i -> years !! j = Some y' ->
                is_year_label num_str y' = false) ->
  ffill_year num_str years i = None.
Proof.
  intros Hnone. unfold ffill_year. rewrite filter_none; [done|].
  intros y' Hy'. apply list_elem_of_lookup in Hy' as [j Hj].
  apply lookup_take_Some in Hj as [Hj Hlt].
  rewrite (Hnone j y'); [done|lia|done].
Qed.

(** The year of a column is the nearest year label at or to the left of it,
    column 0 included: a column [i] with a month inherits the label of
    column [k] when no column between them carries a year label; a column
    with no year label at or before it is dropped. *)
Theorem new_cols_inherit_nearest_year (n : nat) (r0 r1 : list cell) (i : nat) :
  i < n -> i <> 0%nat ->
  let cols := new_cols num_str (row_values n r0) (row_values n r1) in
  (forall k,
     k <= i ->
     is_year_label num_str (iloc_cell r0 k) = true ->
     (forall j, k < j <= i -> is_year_label num_str (iloc_cell r0 j) = false) ->
     truthy (iloc_cell r0 k) = true -> notna (iloc_cell r1 i) = true ->
     cols !! i
     = Some (str_cell num_str (iloc_cell r0 k) +:+ "_" +:+
             str_cell num_str (iloc_cell r1 i))) /\
  ((forall j, j <= i -> is_year_label num_str (iloc_cell r0 j) = false) ->
   cols !! i = Some ("DROP_" +:+ pretty i)).
Proof.
  intros Hi Hi0 cols. split.
  - intros k Hk Hy Hafter Ht Hm. unfold cols. rewrite new_cols_lookup by done.
    rewrite (ffill_year_nearest _ k i (iloc_cell r0 k)); try done.
    + unfold col_label. destruct i; [done|]. simpl Nat.eqb. cbv iota.
      by rewrite Ht, Hm.
    + apply row_values_lookup. lia.
    + intros j y' Hj Hy'. rewrite row_values_lookup in Hy' by lia.
      injection Hy' as <-. by apply Hafter.
  - intros Hnone. unfold cols. rewrite new_cols_lookup by done.
    rewrite ffill_year_none.
    + unfold col_label. by destruct i.
    + intros j y' Hj Hy'. rewrite row_values_lookup in Hy' by lia.
      injection Hy' as <-. by apply Hnone.
Qed.

End ForwardFill.

Lemma new_cols_inherit_nearest_year_witness :
  new_cols Decimal.num_str
    (row_values 4 [NaN; Num 2023; NaN; Num 2024])
    (row_values 4 [Text "Region"; Text "Nov."; Text "Dic."; Text "Ene."]) !! 2%nat
  = Some "2023_Dic.".
Proof.
  apply (proj1 (new_cols_inherit_nearest_year Decimal.num_str 4
                  [NaN; Num 2023; NaN; Num 2024]
                  [Text "Region"; Text "Nov."; Text "Dic."; Text "Ene."] 2
                  ltac:(lia) ltac:(lia)) 1%nat).
  - lia.
  - reflexivity.
  - intros j Hj. assert (j = 2%nat) as -> by lia. reflexivity.
  - reflexivity.
  - reflexivity.
Defined.
